(** * API-Throttling: the request pipeline of [server/main.go]

    A shallow embedding of the Go server: configuration loading
    ([loadConfig], [getEnv]), the two middlewares and their composition
    ([throttleMiddleware], [rateLimitMiddleware], [combinedMiddleware]),
    the health handler ([healthHandler]), the route table and the start-up
    sequence of [main].

    Conventions.
    - Go's [int] is the 64-bit two's-complement integer of the platforms
      the repository is deployed on; values are kept in [Z] and every
      arithmetic result goes through [wrap].
    - [float64] quotients are kept exact (a rational) when finite; a
      division by zero gives the IEEE specials [PosInf], [NegInf], [NaN].
    - Handlers run in a state-and-panic monad over the package-level
      variables ([config], [limiter], [db]), the wall clock, the response
      writer of the request in flight and a trace of the library calls
      that matter for ordering ([time.Sleep], [limiter.Allow], [db.Ping]).
    - [log.Printf] output is not part of the model. *)

From Stdlib Require Import ZArith QArith Qminmax Lia Lqa Ascii String Sorted.
From Stdlib Require DecimalString DecimalZ DecimalPos.
From stdpp Require Import base strings gmap list.

#[local] Set Warnings "-register-all".
#[local] Open Scope Z_scope.

(** ** Machine integers *)

Definition int_min : Z := - 2 ^ 63.
Definition int_max : Z := 2 ^ 63 - 1.

(** [z] is a value of Go's [int]. *)
Definition in_int (z : Z) : Prop := int_min <= z <= int_max.

(** Two's-complement wrap-around of an [int] result. *)
Definition wrap (z : Z) : Z := (z + 2 ^ 63) mod 2 ^ 64 - 2 ^ 63.

(** Go's [%] on integers: the remainder of the truncated division, with
    the sign of the dividend; a zero divisor is a run-time panic. *)
Definition go_rem (a b : Z) : option Z :=
  if b =? 0 then None else Some (Z.rem a b).

(** [time.Millisecond], in nanoseconds. *)
Definition Millisecond : Z := 1000000.

(** ** [float64] quotients *)

Inductive Rate : Type :=
| Finite (q : Q)
| PosInf
| NegInf
| NaN.

(** [float64(a) / float64(b)]: IEEE division never panics. Finite
    quotients are kept exact and in lowest terms. *)
Definition float_div (a b : Z) : Rate :=
  if b =? 0 then
    (if 0 <? a then PosInf else if a <? 0 then NegInf else NaN)
  else Finite (Qred (inject_Z a / inject_Z b)).

(** ** JSON values, as [encoding/json] sees the handlers' maps *)

Inductive JSON : Type :=
| JStr (s : string)
| JInt (n : Z)
| JFloat (r : Rate)
| JBool (b : bool)
| JObj (m : gmap string JSON).

(** [json.Encoder.Encode] fails with [UnsupportedValueError] on a float
    that is infinite or not a number, and then writes nothing. *)
Fixpoint encodable (j : JSON) : bool :=
  match j with
  | JFloat (Finite _) => true
  | JFloat _ => false
  | JObj m => map_fold (fun _ v acc => encodable v && acc) true m
  | _ => true
  end.

(** Field access by path, as a client reading the document would do. *)
Definition jfield (k : string) (j : JSON) : option JSON :=
  match j with
  | JObj m => m !! k
  | _ => None
  end.

Fixpoint jpath (ks : list string) (j : JSON) : option JSON :=
  match ks with
  | [] => Some j
  | k :: ks' =>
      match jfield k j with
      | Some j' => jpath ks' j'
      | None => None
      end
  end.

(** ** Configuration *)

Record Config : Type := mkConfig {
  Port : string;
  DBHost : string;
  DBPort : string;
  DBUser : string;
  DBPassword : string;
  DBName : string;
  RateLimitRequests : Z;
  RateLimitPeriod : Z;   (* seconds *)
  ThrottleMinMs : Z;     (* minimum delay in milliseconds *)
  ThrottleMaxMs : Z      (* maximum delay in milliseconds *)
}.

(** The process environment: variable name to value. *)
Abbreviation Env := (gmap string string).

(** [os.Getenv]: the empty string when the variable is unset. *)
Definition os_Getenv (env : Env) (key : string) : string :=
  default EmptyString (env !! key).

Definition getEnv (env : Env) (key defaultValue : string) : string :=
  let value := os_Getenv env key in
  if decide (value <> EmptyString) then value else defaultValue.

(** *** [strconv.Atoi]

    Part of Go's standard library, not of this repository; the model
    follows its documented contract: an optional sign followed by one or
    more decimal digits; on a syntax error the value is 0; on a value out
    of range the value is the nearest [int] and the error is a range
    error. *)

Inductive NumError : Type := ErrSyntax | ErrRange.

Definition digit_of (a : ascii) : option Z :=
  let n := Z.of_N (N_of_ascii a) in
  if (48 <=? n) && (n <=? 57) then Some (n - 48) else None.

Fixpoint parse_digits (acc : Z) (s : string) : option Z :=
  match s with
  | EmptyString => Some acc
  | String a s' =>
      match digit_of a with
      | Some d => parse_digits (acc * 10 + d) s'
      | None => None
      end
  end.

Definition Atoi (s : string) : Z * option NumError :=
  let '(neg, digits) :=
    match s with
    | String a r =>
        if Ascii.eqb a "+" then (false, r)
        else if Ascii.eqb a "-" then (true, r)
        else (false, s)
    | EmptyString => (false, s)
    end in
  match digits with
  | EmptyString => (0, Some ErrSyntax)
  | _ =>
      match parse_digits 0 digits with
      | None => (0, Some ErrSyntax)
      | Some n =>
          let v := if neg then - n else n in
          if v <? int_min then (int_min, Some ErrRange)
          else if int_max <? v then (int_max, Some ErrRange)
          else (v, None)
      end
  end.

(** [loadConfig]: every [strconv.Atoi] error is dropped ([n, _ := ...]). *)
Definition loadConfig (env : Env) : Config :=
  let rateLimitRequests := fst (Atoi (getEnv env "RATE_LIMIT_REQUESTS" "10")) in
  let rateLimitPeriod := fst (Atoi (getEnv env "RATE_LIMIT_PERIOD" "1")) in
  let throttleMinMs := fst (Atoi (getEnv env "THROTTLE_MIN_MS" "0")) in
  let throttleMaxMs := fst (Atoi (getEnv env "THROTTLE_MAX_MS" "0")) in
  {| Port := getEnv env "PORT" "8888";
     DBHost := getEnv env "DB_HOST" "postgres";
     DBPort := getEnv env "DB_PORT" "5432";
     DBUser := getEnv env "DB_USER" "postgres";
     DBPassword := getEnv env "DB_PASSWORD" "postgres";
     DBName := getEnv env "DB_NAME" "apidb";
     RateLimitRequests := rateLimitRequests;
     RateLimitPeriod := rateLimitPeriod;
     ThrottleMinMs := throttleMinMs;
     ThrottleMaxMs := throttleMaxMs |}.



(** ** The rate limiter

    [main.go] uses [golang.org/x/time/rate]: [rate.NewLimiter(r, b)] and
    [Limiter.Allow()]. The middlewares only see this interface; the
    call time is the wall clock, read by [Allow] itself. *)

Class RateLimiter (L : Type) : Type := {
  NewLimiter : Rate -> Z -> L;
  Allow : Z -> L -> bool * L
}.

Module TokenBucket.

(** Modelled from the spec: the limiter's code ([golang.org/x/time/rate])
    is not among the repository's sources. LimiterState of spec section 3: the current token
    count and the last-refill timestamp (nanoseconds; [None] until the
    first admission), beside the policy the limiter was built from. *)
Record t : Type := mk {
  limit : Rate;          (* ratePerSecond *)
  burst : Z;             (* capacity *)
  tokens : Q;
  last : option Z
}.

(** Modelled from the spec: the constructor of the missing limiter,
    section 4.1: capacity = policy.capacity, refill rate =
    policy.ratePerSecond, initial tokens = capacity. *)
Definition new (r : Rate) (b : Z) : t :=
  {| limit := r; burst := b; tokens := inject_Z b; last := None |}.

(** Seconds since the last refill. *)
Definition elapsed (now : Z) (l : t) : Q :=
  match last l with
  | None => 0
  | Some t0 => inject_Z (Z.max 0 (now - t0)) / inject_Z (10 ^ 9)
  end.

(** Modelled from the spec: the lazy refill of the missing limiter,
    section 4.1: min(capacity, tokens + elapsed * ratePerSecond). The spec
    gives no refill for a rate that is not finite (it wants such a policy
    refused); the bucket is left as it is there. *)
Definition refill (now : Z) (l : t) : Q :=
  match limit l with
  | Finite r => Qmin (inject_Z (burst l)) (tokens l + elapsed now l * r)
  | _ => tokens l
  end.

(** Modelled from the spec: TryAcquire of the missing limiter, section
    4.1: refill, then take one token if at least one is available and
    report admission; otherwise reject and leave the state as it was. *)
Definition TryAcquire (now : Z) (l : t) : bool * t :=
  let available := refill now l in
  if Qle_bool 1 available then
    (true, {| limit := limit l; burst := burst l;
              tokens := available - 1; last := Some now |})
  else (false, l).

(** The decisions of a sequence of calls made at the given times. *)
Fixpoint run (times : list Z) (l : t) : list bool :=
  match times with
  | [] => []
  | now :: rest =>
      let '(ok, l') := TryAcquire now l in
      ok :: run rest l'
  end.

End TokenBucket.

#[export] Instance TokenBucket_RateLimiter : RateLimiter TokenBucket.t :=
  {| NewLimiter := TokenBucket.new; Allow := TokenBucket.TryAcquire |}.

(** ** Requests, responses and the server state *)

Record Request : Type := mkRequest {
  Method : string;
  Path : string;
  RemoteAddr : string
}.

Definition StatusOK : Z := 200.
Definition StatusMethodNotAllowed : Z := 405.
Definition StatusTooManyRequests : Z := 429.
Definition StatusServiceUnavailable : Z := 503.

(** [http.ResponseWriter]: the header map, the status line once it is
    written, and the documents written to the body. *)
Record ResponseWriter : Type := mkRW {
  rw_header : gmap string string;
  rw_status : option Z;
  rw_body : list JSON
}.

Definition newResponseWriter : ResponseWriter :=
  {| rw_header := ∅; rw_status := None; rw_body := [] |}.

(** The status the client receives: 200 unless another one was written. *)
Definition statusCode (w : ResponseWriter) : Z :=
  default StatusOK (rw_status w).

(** Library calls whose order matters, and a marker for a downstream
    handler that is entered (see [observed]). *)
Inductive Event : Type :=
| EvSleep (d : Z)                 (* time.Sleep(d), d in nanoseconds *)
| EvAllow (ok : bool)             (* limiter.Allow() and its answer *)
| EvPing (err : option string)    (* db.Ping() and its error *)
| EvHandler.                      (* a downstream handler was entered *)

(** The package-level variables of [main.go] ([config], [limiter]; [db]
    is the answer its next [Ping] gives, [None] for a nil error), the
    wall clock in nanoseconds since the Unix epoch, the response writer
    of the request being served, and the trace. *)
Record State (L : Type) : Type := mkState {
  clock : Z;
  config : Config;
  limiter : L;
  db : option string;
  rw : ResponseWriter;
  trace : list Event
}.
Arguments mkState {L}.
Arguments clock {L}.
Arguments config {L}.
Arguments limiter {L}.
Arguments db {L}.
Arguments rw {L}.
Arguments trace {L}.

(** How a handler ends: it returns, or it panics (and [net/http] aborts
    the request). *)
Inductive Res (S A : Type) : Type :=
| Ok (a : A) (s : S)
| Panic (msg : string) (s : S).
Arguments Ok {S A}.
Arguments Panic {S A}.

Definition M (L A : Type) : Type := State L -> Res (State L) A.

#[export] Instance M_ret (L : Type) : MRet (M L) :=
  fun A a s => Ok a s.

#[export] Instance M_bind (L : Type) : MBind (M L) :=
  fun A B f m s =>
    match m s with
    | Ok a s' => f a s'
    | Panic msg s' => Panic msg s'
    end.

Abbreviation HandlerFunc L := (Request -> M L unit).

(** ** The server *)

Section Server.
Context {L : Type} `{!RateLimiter L}.

(** [time.Time.Format(time.RFC3339)], applied to a clock reading. *)
Variable RFC3339 : Z -> string.

(** The downstream handlers that talk to the request body or to
    PostgreSQL; the pipeline never looks inside them. *)
Variables postHandler dbGetHandler dbPostHandler : HandlerFunc L.

(** *** Library calls *)

Definition panic {A : Type} (msg : string) : M L A :=
  fun s => Panic msg s.

(** Reading the package-level [config]. *)
Definition getConfig : M L Config :=
  fun s => Ok (config s) s.

Definition time_Now : M L Z :=
  fun s => Ok (clock s) s.

(** [int(t.UnixNano())] *)
Definition UnixNano (t : Z) : Z := wrap t.

(** [time.Sleep(d)]: returns at once when [d <= 0]; otherwise the clock
    has advanced by [d] when it returns. *)
Definition time_Sleep (d : Z) : M L unit :=
  fun s => Ok tt (mkState (clock s + Z.max 0 d) (config s) (limiter s)
                          (db s) (rw s) (trace s ++ [EvSleep d])).

(** [limiter.Allow()] on the package-level limiter. *)
Definition limiter_Allow : M L bool :=
  fun s =>
    let '(ok, l') := Allow (clock s) (limiter s) in
    Ok ok (mkState (clock s) (config s) l' (db s) (rw s)
                   (trace s ++ [EvAllow ok])).

(** [db.Ping()]; the result is [err.Error()] when there is an error. *)
Definition db_Ping : M L (option string) :=
  fun s => Ok (db s) (mkState (clock s) (config s) (limiter s) (db s)
                              (rw s) (trace s ++ [EvPing (db s)])).

Definition with_rw (f : ResponseWriter -> ResponseWriter) : M L unit :=
  fun s => Ok tt (mkState (clock s) (config s) (limiter s) (db s)
                          (f (rw s)) (trace s)).

(** [w.Header().Set(k, v)] *)
Definition Header_Set (k v : string) : M L unit :=
  with_rw (fun w => mkRW (<[k := v]> (rw_header w)) (rw_status w) (rw_body w)).

(** [w.WriteHeader(code)]: only the first status written counts. *)
Definition WriteHeader (code : Z) : M L unit :=
  with_rw (fun w =>
    match rw_status w with
    | None => mkRW (rw_header w) (Some code) (rw_body w)
    | Some _ => w
    end).

(** [w.Write]: writes the status 200 first if none was written. *)
Definition Write (doc : JSON) (w : ResponseWriter) : ResponseWriter :=
  mkRW (rw_header w)
       (Some (default StatusOK (rw_status w)))
       (rw_body w ++ [doc]).

(** [json.NewEncoder(w).Encode(v)], its error dropped as the handlers do. *)
Definition json_Encode (v : JSON) : M L unit :=
  with_rw (fun w => if encodable v then Write v w else w).

Definition emit (e : Event) : M L unit :=
  fun s => Ok tt (mkState (clock s) (config s) (limiter s) (db s)
                          (rw s) (trace s ++ [e])).

(** *** Middlewares *)

Definition throttleMiddleware (next : HandlerFunc L) : HandlerFunc L :=
  fun r =>
    cfg ← getConfig;
    (* Apply artificial delay (throttling) *)
    (if 0 <? ThrottleMaxMs cfg then
       delay ← (if ThrottleMinMs cfg =? ThrottleMaxMs cfg then
                  mret (ThrottleMinMs cfg)
                else
                  (* Random delay between min and max *)
                  now ← time_Now;
                  match go_rem (UnixNano now)
                          (wrap (ThrottleMaxMs cfg - ThrottleMinMs cfg + 1)) with
                  | Some jitter => mret (wrap (ThrottleMinMs cfg + jitter))
                  | None => panic "runtime error: integer divide by zero"
                  end);
       time_Sleep (wrap (delay * Millisecond))
     else mret tt);;
    next r.

Definition rateLimitMiddleware (next : HandlerFunc L) : HandlerFunc L :=
  fun r =>
    ok ← limiter_Allow;
    if negb ok then
      Header_Set "Content-Type" "application/json";;
      WriteHeader StatusTooManyRequests;;
      json_Encode
        (JObj {[ "error" := JStr "Rate limit exceeded. Too many requests." ]})
    else next r.

(** The log lines of [loggingMiddleware] are commented out in the source. *)
Definition loggingMiddleware (next : HandlerFunc L) : HandlerFunc L :=
  fun r => next r.

Definition combinedMiddleware (next : HandlerFunc L) : HandlerFunc L :=
  loggingMiddleware (throttleMiddleware (rateLimitMiddleware next)).

(** A downstream handler that leaves a mark in the trace each time it is
    entered: the device that counts invocations. *)
Definition observed (next : HandlerFunc L) : HandlerFunc L :=
  fun r => emit EvHandler;; next r.

Definition entered (e : Event) : bool :=
  match e with
  | EvHandler => true
  | _ => false
  end.

Definition invocations (tr : list Event) : nat :=
  length (List.filter entered tr).

(** The handler that does nothing: running a middleware around it shows
    the middleware's own effects. *)
Definition noop : HandlerFunc L := fun _ => mret tt.

(** *** Handlers *)

(** The map [healthHandler] builds before it looks at the ping's error. *)
Definition healthResponse (cfg : Config) (dbStatus : string) (now : Z)
  : gmap string JSON :=
  {[ "status" := JStr "ok";
     "time" := JStr (RFC3339 now);
     "database" := JObj {[ "status" := JStr dbStatus;
                           "host" := JStr (DBHost cfg);
                           "port" := JStr (DBPort cfg);
                           "name" := JStr (DBName cfg) ]};
     "configuration" := JObj
       {[ "rate_limiting" := JObj
            {[ "requests" := JInt (RateLimitRequests cfg);
               "period_seconds" := JInt (RateLimitPeriod cfg);
               "rate_per_second" :=
                 JFloat (float_div (RateLimitRequests cfg) (RateLimitPeriod cfg)) ]};
          "throttling" := JObj
            {[ "min_ms" := JInt (ThrottleMinMs cfg);
               "max_ms" := JInt (ThrottleMaxMs cfg);
               "enabled" := JBool (0 <? ThrottleMaxMs cfg) ]} ]};
     "server" := JObj {[ "port" := JStr (Port cfg) ]} ]}.

(** [response["database"].(map[string]interface{})["error"] = dbError] *)
Definition set_database_error (dbError : string) (response : gmap string JSON)
  : gmap string JSON :=
  alter (fun d => match d with
                  | JObj m => JObj (<["error" := JStr dbError]> m)
                  | _ => d
                  end) "database" response.

(** [dbStatus] and [dbError] once [healthHandler] has pinged. *)
Definition dbStatusAfter (err : option string) : string :=
  if err is Some _ then "disconnected" else "connected".

Definition dbErrorAfter (err : option string) : string :=
  if err is Some e then e else EmptyString.

(** The document [healthHandler] hands to the encoder, from its local
    variables. *)
Definition healthDocument (cfg : Config) (dbStatus dbError : string) (now : Z)
  : JSON :=
  let response := healthResponse cfg dbStatus now in
  (* Se houver erro no banco, adicionar detalhes *)
  JObj (if decide (dbError <> EmptyString) then
          <["status" := JStr "degraded"]> (set_database_error dbError response)
        else response).

(** The same document, by the ping's answer. *)
Definition healthSnapshot (cfg : Config) (err : option string) (now : Z) : JSON :=
  healthDocument cfg (dbStatusAfter err) (dbErrorAfter err) now.

Definition healthHandler : HandlerFunc L :=
  fun r =>
    Header_Set "Content-Type" "application/json";;
    (* Verificar conexão com o banco *)
    err ← db_Ping;
    let dbStatus := dbStatusAfter err in
    let dbError := dbErrorAfter err in
    cfg ← getConfig;
    now ← time_Now;
    let response := healthDocument cfg dbStatus dbError now in
    (* Status code baseado na saúde *)
    (if decide (dbStatus = "disconnected") then
       WriteHeader StatusServiceUnavailable
     else mret tt);;
    json_Encode response.

Definition getHandler : HandlerFunc L :=
  fun r =>
    Header_Set "Content-Type" "application/json";;
    now ← time_Now;
    json_Encode (JObj {[ "message" := JStr "GET request received successfully";
                         "time" := JStr (RFC3339 now) ]}).

(** The closure registered for [/api/db/messages]. *)
Definition dbMessages : HandlerFunc L :=
  fun r =>
    combinedMiddleware
      (fun r =>
         if decide (Method r = "GET") then dbGetHandler r
         else if decide (Method r = "POST") then dbPostHandler r
         else WriteHeader StatusMethodNotAllowed) r.

(** *** Routes and start-up *)

(** The patterns [main] registers with [http.HandleFunc]. *)
Definition routes : gmap string (HandlerFunc L) :=
  {[ "/health" := healthHandler;
     "/api/get" := combinedMiddleware getHandler;
     "/api/post" := combinedMiddleware postHandler;
     "/api/db/messages" := dbMessages ]}.

(** Serving one request: the handler registered for the path runs on a
    fresh response writer. A path that matches no pattern is answered by
    [net/http] itself and is not modelled. *)
Definition ServeHTTP (r : Request) (s : State L)
  : option (Res (State L) unit) :=
  h ← routes !! Path r;
  Some (h r (mkState (clock s) (config s) (limiter s) (db s)
                     newResponseWriter (trace s))).

(** The answers of the limiter to calls made at the given times. *)
Fixpoint decisions (times : list Z) (l : L) : list bool :=
  match times with
  | [] => []
  | now :: rest =>
      let '(ok, l') := Allow now l in
      ok :: decisions rest l'
  end.

(** Requests served one after the other, each arriving at its own time;
    the status code each client receives ([None] when the handler
    panicked or no route matched). *)
Fixpoint serveAll (arrivals : list (Z * Request)) (s : State L)
  : list (option Z) :=
  match arrivals with
  | [] => []
  | (now, r) :: rest =>
      match ServeHTTP r (mkState now (config s) (limiter s) (db s)
                                 (rw s) (trace s)) with
      | Some (Ok _ s') => Some (statusCode (rw s')) :: serveAll rest s'
      | Some (Panic _ s') => None :: serveAll rest s'
      | None => None :: serveAll rest s
      end
  end.

(** How [main] ends: [log.Fatalf], or the server is accepting requests. *)
Inductive Process : Type :=
| Fatal (msg : string)
| Serving (s : State L).

(** [main]. [initDB] and [ListenAndServe] talk to the outside world;
    their errors ([None] for nil) are inputs, as are the clock and the
    database's health when the server starts to listen. *)
Definition main (env : Env) (initDB listenAndServe : option string)
    (now : Z) (ping : option string) : Process :=
  let config := loadConfig env in
  (* Initialize rate limiter *)
  (* Rate: requests per second = RateLimitRequests / RateLimitPeriod *)
  let ratePerSecond :=
    float_div (RateLimitRequests config) (RateLimitPeriod config) in
  let limiter := NewLimiter ratePerSecond (RateLimitRequests config) in
  (* Initialize database *)
  match initDB with
  | Some err => Fatal "[FATAL] Failed to initialize database"
  | None =>
      match listenAndServe with
      | Some err => Fatal "[FATAL] Server failed to start"
      | None => Serving (mkState now config limiter ping newResponseWriter [])
      end
  end.

End Server.

(** ** Vocabulary of the statements *)

(** The state in which [time.Sleep(time.Duration(ms) * time.Millisecond)]
    returns. *)
Definition slept {L : Type} (ms : Z) (s : State L) : State L :=
  mkState (clock s + Z.max 0 (wrap (ms * Millisecond))) (config s) (limiter s)
          (db s) (rw s) (trace s ++ [EvSleep (wrap (ms * Millisecond))]).

(** The value [throttleMiddleware] gives its variable [delay] when
    throttling is on, for the clock reading [now]; [None] when the
    modulo panics. *)
Definition throttleDelay (cfg : Config) (now : Z) : option Z :=
  if ThrottleMinMs cfg =? ThrottleMaxMs cfg then Some (ThrottleMinMs cfg)
  else
    match go_rem (UnixNano now)
            (wrap (ThrottleMaxMs cfg - ThrottleMinMs cfg + 1)) with
    | Some jitter => Some (wrap (ThrottleMinMs cfg + jitter))
    | None => None
    end.

(** The body the pipeline writes for a rejected request. *)
Definition rateLimitError : JSON :=
  JObj {[ "error" := JStr "Rate limit exceeded. Too many requests." ]}.

(** A call at time [t] falls in the refill window opened at [t1] when a
    limiter of capacity [C] per [P] seconds has refilled less than one
    token between the two (times in nanoseconds). *)
Definition within_refill_window (C P t1 t : Z) : Prop :=
  (t - t1) * C < P * 10 ^ 9.

(** The process refuses to start under [env]: whatever the outside world
    answers, [main] ends in [log.Fatalf]. *)
Definition refuses_to_start (L : Type) `{!RateLimiter L} (env : Env) : Prop :=
  forall initDB listenAndServe now ping,
    exists msg, main (L := L) env initDB listenAndServe now ping = Fatal msg.

(** The clock is in the range where [UnixNano] is the time elapsed since
    the Unix epoch (1970 to 2262). *)
Definition after_epoch (now : Z) : Prop := 0 <= now < 2 ^ 63.

(** Tokens a limiter of [C] requests per [P] seconds refills in [x]
    nanoseconds. *)
Definition refillRate (C P : Z) : Q := Qred (inject_Z C / inject_Z P).

Definition gain (C P x : Z) : Q :=
  (inject_Z x / inject_Z (10 ^ 9) * refillRate C P)%Q.

(** Reading one field of a snapshot whose keys are all known. *)
Ltac read_snapshot := vm_compute; reflexivity.

(** *** Sample inputs *)

(** A period of zero seconds, and throttle bounds the wrong way round. *)
Definition zero_period_env : Env :=
  {[ "RATE_LIMIT_PERIOD" := "0"%string ]}.

Definition inverted_env : Env :=
  {[ "THROTTLE_MIN_MS" := "500"%string; "THROTTLE_MAX_MS" := "100"%string ]}.


Definition sample_time : Z := 1763202600000000000.

Definition sample_RFC3339 : Z -> string :=
  fun _ => "2025-11-15T10:30:00Z"%string.

Definition sample_request : Request :=
  {| Method := "GET"; Path := "/api/get"; RemoteAddr := "10.0.0.7:51234" |}.

(** The configuration of the README's example: 5 requests per second,
    1000 to 3000 ms of delay. *)
Definition sample_env : Env :=
  {[ "RATE_LIMIT_REQUESTS" := "5"%string;
     "RATE_LIMIT_PERIOD" := "1"%string;
     "THROTTLE_MIN_MS" := "1000"%string;
     "THROTTLE_MAX_MS" := "3000"%string ]}.

(** A fixed delay of 200 ms (README: [THROTTLE_MIN_MS=200],
    [THROTTLE_MAX_MS=200]). *)
Definition fixed_env : Env :=
  {[ "THROTTLE_MIN_MS" := "200"%string; "THROTTLE_MAX_MS" := "200"%string ]}.

(** 1000 requests per hour (README) behind a fixed delay of 200 ms. *)
Definition hourly_env : Env :=
  {[ "RATE_LIMIT_REQUESTS" := "1000"%string;
     "RATE_LIMIT_PERIOD" := "3600"%string;
     "THROTTLE_MIN_MS" := "200"%string;
     "THROTTLE_MAX_MS" := "200"%string ]}.

(** 5 requests per second, throttling off. *)
Definition plain_env : Env :=
  {[ "RATE_LIMIT_REQUESTS" := "5"%string; "RATE_LIMIT_PERIOD" := "1"%string ]}.

(** The state in which [main] starts to serve under [env], at
    [sample_time], with the database up. *)
Definition started (env : Env) : State TokenBucket.t :=
  mkState sample_time (loadConfig env)
          (NewLimiter
             (float_div (RateLimitRequests (loadConfig env))
                        (RateLimitPeriod (loadConfig env)))
             (RateLimitRequests (loadConfig env)))
          None newResponseWriter [].

(** A server state with an exhausted bucket: the limiter has admitted
    its whole burst at [sample_time]. *)
Definition exhausted (cfg : Config) : State TokenBucket.t :=
  mkState sample_time cfg
          (TokenBucket.mk
             (float_div (RateLimitRequests cfg) (RateLimitPeriod cfg))
             (RateLimitRequests cfg) 0 (Some sample_time))
          None newResponseWriter [].

(** ** The rest of [main.go] *)

(** *** [initDB] *)

(** [time.Second], in nanoseconds. *)
Definition Second : Z := 1000 * Millisecond.

(** PostgreSQL as [initDB] meets it: what [sql.Open] answers to a
    connection string, what the [i]-th [db.Ping] answers ([None] for a
    nil error), and what [db.Exec] answers to the CREATE TABLE
    statement. *)
Record Postgres : Type := mkPostgres {
  sql_Open : string -> option string;
  db_Ping_at : nat -> option string;
  db_Exec_create : option string
}.

(** The [fmt.Sprintf] of [initDB]. *)
Definition connStr (config : Config) : string :=
  "host=" +:+ DBHost config +:+ " port=" +:+ DBPort config
  +:+ " user=" +:+ DBUser config +:+ " password=" +:+ DBPassword config
  +:+ " dbname=" +:+ DBName config +:+ " sslmode=disable".

(** What a run of [initDB] leaves behind: the error it returns, the
    number of pings it sent, the time it slept (nanoseconds), and
    whether the CREATE TABLE statement was sent. *)
Record InitRun : Type := mkInitRun {
  init_err : option string;
  init_pings : nat;
  init_slept : Z;
  init_created : bool
}.

Definition maxRetries : nat := 30.

(** The retry loop of [initDB], with [retries] iterations left before
    the [i]-th ping: [err] is the error of the last ping. *)
Fixpoint waitForDatabase (pg : Postgres) (retries i : nat)
    (err : option string) (slept : Z) : option string * nat * Z :=
  match retries with
  | O => (err, i, slept)
  | S retries' =>
      match db_Ping_at pg i with
      | None => (None, S i, slept)
      | Some e =>
          (* Waiting for database... *)
          waitForDatabase pg retries' (S i) (Some e) (slept + 2 * Second)
      end
  end.

Definition initDB (pg : Postgres) (config : Config) : InitRun :=
  match sql_Open pg (connStr config) with
  | Some e => mkInitRun (Some e) 0 0 false
  | None =>
      (* Wait for database to be ready *)
      let '(err, pings, slept) := waitForDatabase pg maxRetries 0 None 0 in
      match err with
      | Some e => mkInitRun (Some e) pings slept false
      | None =>
          (* Create table if not exists *)
          mkInitRun (db_Exec_create pg) pings slept true
      end
  end.

(** *** The downstream handlers *)

Definition StatusCreated : Z := 201.
Definition StatusBadRequest : Z := 400.
Definition StatusInternalServerError : Z := 500.

Record Message : Type := mkMessage {
  ID : Z;
  Content : string;
  CreatedAt : Z
}.

(** The double quote, for the one message that carries some. *)
Definition dq : string := String (ascii_of_nat 34) EmptyString.

Definition invalidMessagePayload : string :=
  "Invalid JSON payload. Expected: {" +:+ dq +:+ "content" +:+ dq +:+ ": "
  +:+ dq +:+ "your message" +:+ dq +:+ "}".

Section Downstream.
Context {L : Type}.

(** [time.Time.Format(time.RFC3339)], and [time.Time] as
    [encoding/json] writes it. *)
Variables RFC3339 Time_MarshalJSON : Z -> string.

(** [json.NewDecoder(r.Body).Decode] into a [map[string]interface{}]
    and into a [Message]: [None] for an error. A payload is kept as the
    object the encoder writes back; payloads with [null] or arrays are
    not values of [JSON] and stay outside the model. *)
Variable decodePayload : Request -> option (gmap string JSON).
Variable decodeMessage : Request -> option Message.

(** The database's answer to the INSERT of a content: the new row's
    [id] and [created_at], or [None] for an error. *)
Variable insertMessage : string -> option (Z * Z).

(** A [Message] as [encoding/json] writes it: [id] has [omitempty]. *)
Definition Message_JSON (msg : Message) : JSON :=
  let fields : gmap string JSON :=
    {[ "content" := JStr (Content msg);
       "created_at" := JStr (Time_MarshalJSON (CreatedAt msg)) ]} in
  JObj (if ID msg =? 0 then fields else <["id" := JInt (ID msg)]> fields).

Definition postHandler : HandlerFunc L :=
  fun r =>
    match decodePayload r with
    | None =>
        Header_Set "Content-Type" "application/json";;
        WriteHeader StatusBadRequest;;
        json_Encode (JObj {[ "error" := JStr "Invalid JSON payload" ]})
    | Some payload =>
        Header_Set "Content-Type" "application/json";;
        now ← time_Now;
        json_Encode
          (JObj {[ "message" := JStr "POST request received successfully";
                   "received" := JObj payload;
                   "time" := JStr (RFC3339 now) ]})
    end.

Definition dbPostHandler : HandlerFunc L :=
  fun r =>
    match decodeMessage r with
    | None =>
        Header_Set "Content-Type" "application/json";;
        WriteHeader StatusBadRequest;;
        json_Encode (JObj {[ "error" := JStr invalidMessagePayload ]})
    | Some msg =>
        if decide (Content msg = EmptyString) then
          Header_Set "Content-Type" "application/json";;
          WriteHeader StatusBadRequest;;
          json_Encode (JObj {[ "error" := JStr "Content field is required" ]})
        else
          match insertMessage (Content msg) with
          | None =>
              Header_Set "Content-Type" "application/json";;
              WriteHeader StatusInternalServerError;;
              json_Encode (JObj {[ "error" := JStr "Failed to insert message" ]})
          | Some (id, createdAt) =>
              let msg := mkMessage id (Content msg) createdAt in
              Header_Set "Content-Type" "application/json";;
              WriteHeader StatusCreated;;
              json_Encode
                (JObj {[ "message" := JStr "Message saved successfully";
                         "data" := Message_JSON msg ]})
          end
    end.

End Downstream.

(** *** More vocabulary and samples *)


(** The decimal numeral of an integer, as a shell or [strconv.Itoa]
    writes it: a [-] for a negative number, no leading zero. *)
Definition decimal (n : Z) : string :=
  DecimalString.NilZero.string_of_int (Z.to_int n).

(** The variables [loadConfig] reads. *)
Definition config_keys : list string :=
  ["PORT"; "DB_HOST"; "DB_PORT"; "DB_USER"; "DB_PASSWORD"; "DB_NAME";
   "RATE_LIMIT_REQUESTS"; "RATE_LIMIT_PERIOD";
   "THROTTLE_MIN_MS"; "THROTTLE_MAX_MS"]%string.

(** The three routes behind [combinedMiddleware]. *)
Definition api_paths : list string :=
  ["/api/get"; "/api/post"; "/api/db/messages"]%string.

(** The state a request finds: the server's, with a response writer of
    its own. *)
Definition fresh {L : Type} (s : State L) : State L :=
  mkState (clock s) (config s) (limiter s) (db s) newResponseWriter (trace s).

(** The statuses the requests to [/api/get] got, out of the statuses of
    all the requests served. *)
Definition to_api_get (a : Z * Request * option Z) : bool :=
  bool_decide (Path (snd (fst a)) = "/api/get"%string).

Definition api_get_statuses (arrivals : list (Z * Request))
    (statuses : list (option Z)) : list (option Z) :=
  map snd (List.filter to_api_get (zip arrivals statuses)).

Definition api_get_times (arrivals : list (Z * Request)) : list Z :=
  map fst
      (List.filter (fun a => bool_decide (Path (snd a) = "/api/get"%string))
                   arrivals).

(** A body that decodes to a message with content [hello] (and an
    [id] of the client's own), one that does not decode, and a database
    that stores a row as number 7. Numbers of a decoded payload are
    [float64]. *)
Definition sample_message (r : Request) : option Message :=
  if decide (Method r = "POST"%string)
  then Some (mkMessage 99 "hello" 0) else None.

Definition sample_insert (content : string) : option (Z * Z) :=
  Some (7, sample_time).

Definition sample_payload (r : Request) : option (gmap string JSON) :=
  if decide (Method r = "POST"%string)
  then Some {[ "name" := JStr "Ana"; "age" := JFloat (Finite (30 # 1)) ]}
  else None.

Definition sample_post : Request :=
  {| Method := "POST"; Path := "/api/db/messages";
     RemoteAddr := "10.0.0.7:51234" |}.

(** Six requests to [/api/get] within 4 ms, with health checks in
    between. *)
Definition sample_health : Request :=
  {| Method := "GET"; Path := "/health"; RemoteAddr := "10.0.0.9:40000" |}.

Definition sample_mix : list (Z * Request) :=
  [(sample_time, sample_request); (sample_time, sample_health);
   (sample_time, sample_request); (sample_time + 1000000, sample_health);
   (sample_time + 1000000, sample_request);
   (sample_time + 2000000, sample_request);
   (sample_time + 2000000, sample_health);
   (sample_time + 3000000, sample_request);
   (sample_time + 3000000, sample_health);
   (sample_time + 4000000, sample_request)].

(** A database that refuses its first [k] pings. *)
Definition up_after (k : nat) : Postgres :=
  mkPostgres (fun _ => None)
             (fun i => if (i <? k)%nat then Some "connection refused"%string
                       else None)
             None.

(** * Properties *)

(** ** Integers and rationals *)

Lemma wrap_id (z : Z) : in_int z -> wrap z = z.
Proof.
  unfold in_int, int_min, int_max, wrap. intros Hz.
  rewrite Z.mod_small; lia.
Qed.

Lemma wrap_in_int (z : Z) : in_int (wrap z).
Proof.
  unfold in_int, int_min, int_max, wrap.
  pose proof (Z.mod_pos_bound (z + 2 ^ 63) (2 ^ 64)). lia.
Qed.

Lemma inject_Z_pos (z : Z) : 0 < z -> (0 < inject_Z z)%Q.
Proof. intros Hz. unfold Qlt; simpl. lia. Qed.

Lemma inject_Z_nonneg (z : Z) : 0 <= z -> (0 <= inject_Z z)%Q.
Proof. intros Hz. unfold Qle; simpl. lia. Qed.

(** ** The token bucket *)

Section Burst.
Import TokenBucket.
Variables C P : Z.
Hypothesis HC : 0 < C.
Hypothesis HP : 0 < P.

#[local] Abbreviation r := (refillRate C P).
#[local] Abbreviation gain := (gain C P).

Lemma float_div_rate : float_div C P = Finite r.
Proof.
  unfold float_div. destruct (Z.eqb_spec P 0); [lia|reflexivity].
Qed.

Lemma rate_pos : (0 < r)%Q.
Proof.
  unfold r. rewrite Qred_correct.
  apply Qlt_shift_div_l.
  - apply inject_Z_pos, HP.
  - rewrite Qmult_0_l. apply inject_Z_pos, HC.
Qed.

Lemma gain_add (x y : Z) : (gain (x + y) == gain x + gain y)%Q.
Proof. unfold gain. rewrite inject_Z_plus. field. discriminate. Qed.

Lemma gain_nonneg (x : Z) : 0 <= x -> (0 <= gain x)%Q.
Proof.
  intros Hx. unfold gain.
  apply Qmult_le_0_compat; [|apply Qlt_le_weak, rate_pos].
  apply Qle_shift_div_l; [reflexivity|].
  rewrite Qmult_0_l. apply inject_Z_nonneg, Hx.
Qed.

(** Inside the refill window less than one token comes back. *)
Lemma gain_window (x : Z) : x * C < P * 10 ^ 9 -> (gain x < 1)%Q.
Proof.
  intros Hx. unfold gain, r. rewrite Qred_correct.
  assert (HP' : (0 < inject_Z P)%Q) by apply inject_Z_pos, HP.
  assert (E : (inject_Z x / inject_Z (10 ^ 9) * (inject_Z C / inject_Z P)
               == inject_Z (x * C) / inject_Z (P * 10 ^ 9))%Q).
  { rewrite !inject_Z_mult. field. split; [discriminate|].
    intros E. rewrite E in HP'. discriminate. }
  rewrite E. apply Qlt_shift_div_r.
  - apply inject_Z_pos. lia.
  - rewrite Qmult_1_l. rewrite <- Zlt_Qlt. exact Hx.
Qed.

Lemma refill_step (l : t) (tl now : Z) :
  limit l = Finite r -> burst l = C -> last l = Some tl -> tl <= now ->
  refill now l = Qmin (inject_Z C) (tokens l + gain (now - tl))%Q.
Proof.
  intros Hl Hb Hlast Hle. unfold refill, elapsed, gain.
  rewrite Hl, Hb, Hlast. rewrite Z.max_r by lia. reflexivity.
Qed.

(** A bucket holding between [k] and [k] plus the window's gain tokens
    admits exactly [k] more calls inside the window. *)
Lemma run_drains (k : nat) :
  forall (times : list Z) (l : t) (tl t1 : Z),
    limit l = Finite r -> burst l = C -> last l = Some tl -> t1 <= tl ->
    (inject_Z (Z.of_nat k) <= tokens l)%Q ->
    (tokens l <= inject_Z (Z.of_nat k) + gain (tl - t1))%Q ->
    Z.of_nat k < C ->
    length times = S k ->
    StronglySorted Z.le (tl :: times) ->
    Forall (within_refill_window C P t1) times ->
    run times l = replicate k true ++ [false].
Proof.
  induction k as [|k IH];
    intros times l tl t1 Hl Hb Hlast Ht1 Hlo Hhi HkC Hlen Hs Hw.
  - destruct times as [|now [|? ?]]; try discriminate. simpl.
    apply StronglySorted_inv in Hs as [_ Hle].
    apply Forall_cons_iff in Hle as [Hle _].
    apply Forall_cons_iff in Hw as [Hw _].
    unfold TryAcquire. rewrite (refill_step l tl now) by assumption.
    pose proof (Q.le_min_r (inject_Z C) (tokens l + gain (now - tl))) as Hr.
    pose proof (gain_add (now - tl) (tl - t1)) as Ha.
    replace (now - tl + (tl - t1)) with (now - t1) in Ha by lia.
    pose proof (gain_window (now - t1) Hw) as Hlt.
    change (inject_Z (Z.of_nat 0)) with 0%Q in Hlo, Hhi.
    destruct (Qle_bool 1 _) eqn:Hq; [|reflexivity].
    apply Qle_bool_iff in Hq. lra.
  - destruct times as [|now rest]; try discriminate.
    injection Hlen as Hlen.
    apply StronglySorted_inv in Hs as [Hs' Hle].
    apply Forall_cons_iff in Hle as [Hle _].
    apply Forall_cons_iff in Hw as [Hw Hw'].
    cbn [run]. unfold TryAcquire. rewrite (refill_step l tl now) by assumption.
    set (av := Qmin (inject_Z C) (tokens l + gain (now - tl))%Q).
    pose proof (Q.le_min_r (inject_Z C) (tokens l + gain (now - tl))) as Hr.
    pose proof (gain_add (now - tl) (tl - t1)) as Ha.
    replace (now - tl + (tl - t1)) with (now - t1) in Ha by lia.
    pose proof (gain_nonneg (now - tl) ltac:(lia)) as Hg.
    assert (HS : (inject_Z (Z.of_nat (S k)) == inject_Z (Z.of_nat k) + 1)%Q).
    { rewrite Nat2Z.inj_succ, <- Z.add_1_r, inject_Z_plus. reflexivity. }
    assert (HkQ : (inject_Z (Z.of_nat (S k)) <= inject_Z C)%Q).
    { rewrite <- Zle_Qle. lia. }
    assert (Hk0 : (0 <= inject_Z (Z.of_nat k))%Q) by (apply inject_Z_nonneg; lia).
    assert (Hav : (inject_Z (Z.of_nat (S k)) <= av)%Q).
    { apply Q.min_glb; lra. }
    fold av in Hr.
    destruct (Qle_bool 1 av) eqn:Hq.
    + cbn [replicate app]. f_equal.
      apply (IH rest _ now t1); simpl;
        try assumption; try reflexivity; try lia; try lra.
    + exfalso. assert (Hn : ~ (1 <= av)%Q).
      { intros Hc. apply Qle_bool_iff in Hc. congruence. }
      apply Hn. lra.
Qed.

(** The first call on a new limiter finds the bucket full. *)
Lemma first_call (now : Z) :
  TryAcquire now (new (Finite r) C)
  = (true, mk (Finite r) C
              (Qmin (inject_Z C) (inject_Z C + 0 * r) - 1) (Some now)).
Proof.
  unfold TryAcquire, refill, elapsed, new; simpl.
  assert (H1 : (1 <= Qmin (inject_Z C) (inject_Z C + 0 * r))%Q).
  { assert ((1 <= inject_Z C)%Q).
    { change 1%Q with (inject_Z 1). rewrite <- Zle_Qle. lia. }
    apply Q.min_glb; lra. }
  apply Qle_bool_iff in H1. rewrite H1. reflexivity.
Qed.

Lemma burst_from_full (t1 : Z) (rest : list Z) :
  length rest = Z.to_nat C ->
  StronglySorted Z.le (t1 :: rest) ->
  Forall (within_refill_window C P t1) rest ->
  run (t1 :: rest) (new (float_div C P) C)
  = replicate (Z.to_nat C) true ++ [false].
Proof.
  intros Hlen Hs Hw. rewrite float_div_rate.
  cbn [run]. rewrite first_call.
  destruct (Z.to_nat C) as [|k] eqn:Hk; [lia|].
  cbn [replicate app]. f_equal.
  assert (HCk : inject_Z C == inject_Z (Z.of_nat k) + 1).
  { replace C with (Z.of_nat k + 1) by lia. rewrite inject_Z_plus.
    reflexivity. }
  assert (Hmin : Qmin (inject_Z C) (inject_Z C + 0 * r) == inject_Z C).
  { apply Q.min_l. lra. }
  assert (Hg0 : gain (t1 - t1) == 0).
  { unfold gain. rewrite Z.sub_diag. reflexivity. }
  apply (run_drains k rest _ t1 t1); simpl;
    try assumption; try reflexivity; try lia; try lra.
Qed.

End Burst.

(** C2. The limiter [main] builds from a configuration of [C > 0]
    requests per [P > 0] seconds starts with [C] tokens; of [C + 1] calls
    made in time order inside one refill window (less than one token
    refilled since the first call), the first [C] are admitted and the
    last one is rejected. *)
Theorem fresh_limiter_admits_burst
    (env : Env) (now : Z) (ping : option string)
    (s : State TokenBucket.t) (t1 : Z) (rest : list Z) :
  main env None None now ping = Serving s ->
  0 < RateLimitRequests (config s) ->
  0 < RateLimitPeriod (config s) ->
  length rest = Z.to_nat (RateLimitRequests (config s)) ->
  StronglySorted Z.le (t1 :: rest) ->
  Forall (within_refill_window
            (RateLimitRequests (config s)) (RateLimitPeriod (config s)) t1)
         rest ->
  TokenBucket.tokens (limiter s) = inject_Z (RateLimitRequests (config s))
  /\ TokenBucket.run (t1 :: rest) (limiter s)
     = replicate (Z.to_nat (RateLimitRequests (config s))) true ++ [false].
Proof.
  intros Hmain HC HP Hlen Hs Hw.
  unfold main in Hmain. injection Hmain as <-. simpl in *.
  split; [reflexivity|].
  apply burst_from_full; assumption.
Qed.

(** 5 requests per second: six calls within 150 ms. *)
Lemma fresh_limiter_admits_burst_witness :
  TokenBucket.tokens (NewLimiter (float_div 5 1) 5) = inject_Z 5
  /\ TokenBucket.run
       [sample_time; sample_time; sample_time + 1000000;
        sample_time + 1000000; sample_time + 90000000;
        sample_time + 150000000]
       (NewLimiter (float_div 5 1) 5)
     = [true; true; true; true; true; false].
Proof.
  apply (fresh_limiter_admits_burst sample_env sample_time None
           (mkState sample_time (loadConfig sample_env)
                    (NewLimiter (float_div 5 1) 5) None newResponseWriter [])
           sample_time
           [sample_time; sample_time + 1000000; sample_time + 1000000;
            sample_time + 90000000; sample_time + 150000000]).
  - reflexivity.
  - vm_compute; reflexivity.
  - vm_compute; reflexivity.
  - reflexivity.
  - unfold sample_time. repeat constructor; lia.
  - unfold within_refill_window, sample_time.
    repeat constructor; vm_compute; reflexivity.
Defined.

(** ** The throttle stage *)

Section Throttle.
Context {L : Type}.
Implicit Types (next : HandlerFunc L) (r : Request) (s : State L).

(** [throttleMiddleware], one branch at a time. *)
Lemma throttleMiddleware_unfold next r s :
  throttleMiddleware next r s =
  if 0 <? ThrottleMaxMs (config s) then
    match throttleDelay (config s) (clock s) with
    | Some delay => next r (slept delay s)
    | None => Panic "runtime error: integer divide by zero" s
    end
  else next r s.
Proof.
  unfold throttleMiddleware, throttleDelay, mbind, M_bind, getConfig; simpl.
  destruct (0 <? _); [|reflexivity].
  destruct (_ =? _); [reflexivity|].
  unfold time_Now. destruct (go_rem _ _); reflexivity.
Qed.

(** The remainder by the width of a well-formed interval stays inside
    the interval, for a clock reading after the epoch. *)
Lemma jitter_bounds (n lo hi : Z) :
  0 <= n < 2 ^ 63 -> 0 <= lo < hi -> hi <= int_max ->
  exists j, go_rem n (wrap (hi - lo + 1)) = Some j /\ 0 <= j <= hi - lo.
Proof.
  unfold int_max. intros Hn Hlo Hhi. unfold go_rem.
  destruct (Z.eq_dec (hi - lo + 1) (2 ^ 63)) as [E|E].
  - rewrite E. change (wrap (2 ^ 63)) with (- 2 ^ 63).
    change (- 2 ^ 63 =? 0) with false. exists n.
    rewrite Z.rem_opp_r by lia. rewrite Z.rem_small by lia.
    split; [reflexivity|lia].
  - rewrite wrap_id by (unfold in_int, int_min, int_max; lia).
    destruct (Z.eqb_spec (hi - lo + 1) 0); [lia|].
    eexists; split; [reflexivity|].
    pose proof (Z.rem_bound_pos n (hi - lo + 1)). lia.
Qed.

Lemma throttleDelay_in_interval (cfg : Config) (now : Z) :
  0 <= ThrottleMinMs cfg < ThrottleMaxMs cfg ->
  ThrottleMaxMs cfg <= int_max ->
  after_epoch now ->
  exists d, throttleDelay cfg now = Some d
            /\ ThrottleMinMs cfg <= d <= ThrottleMaxMs cfg.
Proof.
  intros Hlo Hhi Hnow. unfold throttleDelay, UnixNano.
  destruct (Z.eqb_spec (ThrottleMinMs cfg) (ThrottleMaxMs cfg)); [lia|].
  rewrite (wrap_id now)
    by (unfold after_epoch in Hnow; unfold in_int, int_min, int_max; lia).
  destruct (jitter_bounds now _ _ Hnow Hlo Hhi) as (j & -> & Hj).
  eexists; split; [reflexivity|].
  rewrite wrap_id; [lia|].
  unfold in_int, int_min, int_max in *. lia.
Qed.

(** C4. The delay [throttleMiddleware] computes: none at all when
    [ThrottleMaxMs] is 0, whatever [ThrottleMinMs] is (the next handler
    runs in the same state: no call to [time.Sleep]); exactly the
    configured value when the two bounds are the same positive number;
    and, for bounds [0 <= min < max] and a clock after the epoch, a value
    of the closed interval from [min] to [max]. *)
Theorem throttle_delay_cases next r s :
  (ThrottleMaxMs (config s) = 0 -> throttleMiddleware next r s = next r s)
  /\ (ThrottleMinMs (config s) = ThrottleMaxMs (config s) ->
      0 < ThrottleMaxMs (config s) ->
      throttleDelay (config s) (clock s) = Some (ThrottleMaxMs (config s))
      /\ throttleMiddleware next r s
         = next r (slept (ThrottleMaxMs (config s)) s))
  /\ (0 <= ThrottleMinMs (config s) < ThrottleMaxMs (config s) ->
      ThrottleMaxMs (config s) <= int_max ->
      after_epoch (clock s) ->
      exists d,
        ThrottleMinMs (config s) <= d <= ThrottleMaxMs (config s)
        /\ throttleDelay (config s) (clock s) = Some d
        /\ throttleMiddleware next r s = next r (slept d s)).
Proof.
  rewrite throttleMiddleware_unfold. split; [|split].
  - intros ->. reflexivity.
  - intros Heq Hpos.
    assert (Hd : throttleDelay (config s) (clock s)
                 = Some (ThrottleMaxMs (config s))).
    { unfold throttleDelay. rewrite Heq, Z.eqb_refl. reflexivity. }
    rewrite Hd. destruct (Z.ltb_spec 0 (ThrottleMaxMs (config s))); [|lia].
    split; reflexivity.
  - intros Hlo Hhi Hnow.
    destruct (throttleDelay_in_interval _ _ Hlo Hhi Hnow) as (d & Hd & Hb).
    exists d. rewrite Hd.
    destruct (Z.ltb_spec 0 (ThrottleMaxMs (config s))); [|lia].
    auto.
Qed.

(** C9. With throttling on and two different bounds the jitter is the
    clock reading modulo [max - min + 1]. The computation never panics
    when [0 <= min <= max]; for [min = max + 1] the divisor is zero and
    the request ends in Go's integer-divide-by-zero panic; for
    [min > max + 1] the delay is larger than [max]. *)
Theorem throttle_modulo_hazards next r s :
  0 < ThrottleMaxMs (config s) ->
  (ThrottleMinMs (config s) <> ThrottleMaxMs (config s) ->
   throttleMiddleware next r s =
   match go_rem (UnixNano (clock s))
           (wrap (ThrottleMaxMs (config s) - ThrottleMinMs (config s) + 1)) with
   | Some jitter => next r (slept (wrap (ThrottleMinMs (config s) + jitter)) s)
   | None => Panic "runtime error: integer divide by zero" s
   end)
  /\ (0 <= ThrottleMinMs (config s) <= ThrottleMaxMs (config s) ->
      ThrottleMaxMs (config s) <= int_max ->
      exists d, throttleMiddleware next r s = next r (slept d s))
  /\ (ThrottleMinMs (config s) = ThrottleMaxMs (config s) + 1 ->
      wrap (ThrottleMaxMs (config s) - ThrottleMinMs (config s) + 1) = 0
      /\ throttleDelay (config s) (clock s) = None
      /\ throttleMiddleware next r s
         = Panic "runtime error: integer divide by zero" s)
  /\ (ThrottleMaxMs (config s) + 1 < ThrottleMinMs (config s) ->
      ThrottleMinMs (config s) <= 2 ^ 62 ->
      exists d,
        ThrottleMaxMs (config s) < d
        /\ throttleDelay (config s) (clock s) = Some d
        /\ throttleMiddleware next r s = next r (slept d s)).
Proof.
  intros Hon. rewrite throttleMiddleware_unfold.
  destruct (Z.ltb_spec 0 (ThrottleMaxMs (config s))); [|lia].
  unfold throttleDelay.
  set (lo := ThrottleMinMs (config s)) in *.
  set (hi := ThrottleMaxMs (config s)) in *.
  split; [|split; [|split]].
  - intros Hne. destruct (Z.eqb_spec lo hi); [lia|].
    destruct (go_rem _ _); reflexivity.
  - intros Hle Hhi. destruct (Z.eqb_spec lo hi); [eauto|].
    assert (Hd : wrap (hi - lo + 1) <> 0).
    { unfold int_max in Hhi.
      destruct (Z.eq_dec (hi - lo + 1) (2 ^ 63)) as [E|E].
      - rewrite E. discriminate.
      - rewrite wrap_id by (unfold in_int, int_min, int_max; lia). lia. }
    unfold go_rem. destruct (Z.eqb_spec (wrap (hi - lo + 1)) 0); [lia|eauto].
  - intros Heq. destruct (Z.eqb_spec lo hi); [lia|].
    replace (hi - lo + 1) with 0 by lia. repeat split.
  - intros Hgt Hbig. destruct (Z.eqb_spec lo hi); [lia|].
    rewrite (wrap_id (hi - lo + 1))
      by (unfold in_int, int_min, int_max; lia).
    unfold go_rem. destruct (Z.eqb_spec (hi - lo + 1) 0); [lia|].
    pose proof (Z.rem_bound_abs (UnixNano (clock s)) (hi - lo + 1) ltac:(lia))
      as Hrem.
    assert (Hin : in_int (lo + Z.rem (UnixNano (clock s)) (hi - lo + 1))).
    { unfold in_int, int_min, int_max. lia. }
    rewrite (wrap_id _ Hin). eexists; repeat split. lia.
Qed.

End Throttle.

(** The unset environment (throttling off), a fixed delay of 200 ms,
    and the README's 1000 to 3000 ms. *)
Lemma throttle_delay_cases_witness :
  throttleMiddleware noop sample_request (exhausted (loadConfig ∅))
  = Ok tt (exhausted (loadConfig ∅))
  /\ throttleMiddleware noop sample_request (exhausted (loadConfig fixed_env))
     = Ok tt (slept 200 (exhausted (loadConfig fixed_env)))
  /\ exists d,
       1000 <= d <= 3000
       /\ throttleMiddleware noop sample_request (exhausted (loadConfig sample_env))
          = Ok tt (slept d (exhausted (loadConfig sample_env))).
Proof.
  split; [|split].
  - apply (proj1 (throttle_delay_cases noop sample_request
                    (exhausted (loadConfig ∅)))).
    reflexivity.
  - apply (proj1 (proj2 (throttle_delay_cases noop sample_request
                           (exhausted (loadConfig fixed_env))))).
    + reflexivity.
    + reflexivity.
  - destruct (proj2 (proj2 (throttle_delay_cases noop sample_request
                              (exhausted (loadConfig sample_env)))))
      as (d & Hd & _ & Hrun).
    + vm_compute. split; [discriminate|reflexivity].
    + vm_compute. discriminate.
    + vm_compute. split; [discriminate|reflexivity].
    + exists d. split; [exact Hd|exact Hrun].
Defined.

(** [THROTTLE_MIN_MS=501] with [THROTTLE_MAX_MS=500] panics;
    [THROTTLE_MIN_MS=3000] with [THROTTLE_MAX_MS=1000] sleeps more than
    a second. *)
Lemma throttle_modulo_hazards_witness :
  throttleMiddleware noop sample_request
    (exhausted (loadConfig {[ "THROTTLE_MIN_MS" := "501"%string;
                              "THROTTLE_MAX_MS" := "500"%string ]}))
  = Panic "runtime error: integer divide by zero"
      (exhausted (loadConfig {[ "THROTTLE_MIN_MS" := "501"%string;
                                "THROTTLE_MAX_MS" := "500"%string ]}))
  /\ exists d,
       1000 < d
       /\ throttleMiddleware noop sample_request
            (exhausted (loadConfig {[ "THROTTLE_MIN_MS" := "3000"%string;
                                      "THROTTLE_MAX_MS" := "1000"%string ]}))
          = Ok tt (slept d
              (exhausted (loadConfig {[ "THROTTLE_MIN_MS" := "3000"%string;
                                        "THROTTLE_MAX_MS" := "1000"%string ]}))).
Proof.
  split.
  - apply (throttle_modulo_hazards noop sample_request
             (exhausted (loadConfig {[ "THROTTLE_MIN_MS" := "501"%string;
                                       "THROTTLE_MAX_MS" := "500"%string ]}))).
    + reflexivity.
    + reflexivity.
  - destruct (throttle_modulo_hazards noop sample_request
                (exhausted (loadConfig {[ "THROTTLE_MIN_MS" := "3000"%string;
                                          "THROTTLE_MAX_MS" := "1000"%string ]})))
      as (_ & _ & _ & Hbig).
    + reflexivity.
    + destruct Hbig as (d & Hd & _ & Hrun).
      * reflexivity.
      * vm_compute. discriminate.
      * exists d. split; [exact Hd|exact Hrun].
Defined.

(** ** The pipeline *)

Section Pipeline.
Context {L : Type} `{!RateLimiter L}.
Implicit Types (next : HandlerFunc L) (r : Request) (s : State L).

Lemma throttle_stage r s :
  throttleMiddleware noop r s =
  if 0 <? ThrottleMaxMs (config s) then
    match throttleDelay (config s) (clock s) with
    | Some delay => Ok tt (slept delay s)
    | None => Panic "runtime error: integer divide by zero" s
    end
  else Ok tt s.
Proof. rewrite throttleMiddleware_unfold. reflexivity. Qed.

(** The pipeline is the throttle stage, then the admission stage in the
    state the throttle stage leaves behind. *)
Lemma combinedMiddleware_stages next r s :
  combinedMiddleware next r s =
  match throttleMiddleware noop r s with
  | Ok _ s1 => rateLimitMiddleware next r s1
  | Panic msg s1 => Panic msg s1
  end.
Proof.
  unfold combinedMiddleware, loggingMiddleware.
  rewrite !throttleMiddleware_unfold.
  destruct (0 <? _); [|reflexivity].
  destruct (throttleDelay _ _); reflexivity.
Qed.

(** The throttle stage touches the clock and the trace only. *)
Lemma throttle_stage_frame r s s1 :
  throttleMiddleware noop r s = Ok tt s1 ->
  config s1 = config s /\ limiter s1 = limiter s /\ db s1 = db s
  /\ rw s1 = rw s /\ invocations (trace s1) = invocations (trace s).
Proof.
  rewrite throttle_stage.
  destruct (0 <? _); [destruct (throttleDelay _ _); [|discriminate]|];
    intros [= <-]; repeat split.
  unfold invocations; simpl. rewrite List.filter_app, length_app. simpl. lia.
Qed.

Lemma encodable_rateLimitError : encodable rateLimitError = true.
Proof. reflexivity. Qed.

Lemma rateLimitMiddleware_rejected next r s l' :
  Allow (clock s) (limiter s) = (false, l') ->
  rateLimitMiddleware next r s =
  Ok tt (mkState (clock s) (config s) l' (db s)
           (Write rateLimitError
              (mkRW (<["Content-Type" := "application/json"%string]>
                       (rw_header (rw s)))
                    (Some (default StatusTooManyRequests (rw_status (rw s))))
                    (rw_body (rw s))))
           (trace s ++ [EvAllow false])).
Proof.
  intros HA. unfold rateLimitMiddleware. fold rateLimitError.
  unfold mbind, M_bind, limiter_Allow. rewrite HA.
  cbn [negb]. unfold json_Encode, Header_Set, WriteHeader, with_rw.
  rewrite encodable_rateLimitError.
  cbn [clock config limiter db rw trace rw_header rw_status rw_body].
  destruct (rw_status (rw s)); reflexivity.
Qed.

Lemma rateLimitMiddleware_allowed next r s l' :
  Allow (clock s) (limiter s) = (true, l') ->
  rateLimitMiddleware next r s =
  next r (mkState (clock s) (config s) l' (db s) (rw s)
            (trace s ++ [EvAllow true])).
Proof.
  intros HA. unfold rateLimitMiddleware, mbind, M_bind, limiter_Allow.
  rewrite HA. reflexivity.
Qed.

(** C1. The pipeline runs the throttle stage first and the admission
    check in the state that stage leaves: with throttling on, the
    computed delay has been slept before [limiter.Allow] is called (and
    a panic of the delay computation ends the request before any
    check). A rejected request has the sleep of its full delay in the
    trace before the limiter's answer, and its clock has advanced by
    that delay. *)
Theorem delay_precedes_admission next r s :
  combinedMiddleware next r s =
    match throttleMiddleware noop r s with
    | Ok _ s1 => rateLimitMiddleware next r s1
    | Panic msg s1 => Panic msg s1
    end
  /\ throttleMiddleware noop r s =
     (if 0 <? ThrottleMaxMs (config s) then
        match throttleDelay (config s) (clock s) with
        | Some delay => Ok tt (slept delay s)
        | None => Panic "runtime error: integer divide by zero" s
        end
      else Ok tt s)
  /\ (forall delay l',
        0 < ThrottleMaxMs (config s) ->
        throttleDelay (config s) (clock s) = Some delay ->
        Allow (clock (slept delay s)) (limiter s) = (false, l') ->
        exists s2,
          combinedMiddleware next r s = Ok tt s2
          /\ trace s2 = trace s ++ [EvSleep (wrap (delay * Millisecond));
                                    EvAllow false]
          /\ clock s2 = clock s + Z.max 0 (wrap (delay * Millisecond))
          /\ (0 <= delay * Millisecond <= int_max ->
              clock s2 - clock s = delay * Millisecond)).
Proof.
  split; [apply combinedMiddleware_stages|].
  split; [apply throttle_stage|].
  intros delay l' Hon Hd HA.
  rewrite combinedMiddleware_stages, throttle_stage, Hd.
  destruct (Z.ltb_spec 0 (ThrottleMaxMs (config s))); [|lia].
  rewrite (rateLimitMiddleware_rejected next r (slept delay s) l' HA).
  eexists; split; [reflexivity|]. simpl.
  split; [rewrite <- app_assoc; reflexivity|].
  split; [reflexivity|].
  intros Hr. rewrite wrap_id by (unfold in_int, int_min; lia). lia.
Qed.

(** C3. A request the limiter rejects is answered with status 429 and
    the one-field object [error], as JSON; the answer is the same
    whatever the downstream handler is, and no downstream handler is
    entered. *)
Theorem rejected_request_gets_429 next r s s1 l' :
  rw s = newResponseWriter ->
  throttleMiddleware noop r s = Ok tt s1 ->
  Allow (clock s1) (limiter s1) = (false, l') ->
  exists s2,
    combinedMiddleware next r s = Ok tt s2
    /\ statusCode (rw s2) = 429
    /\ rw_body (rw s2)
       = [JObj {[ "error" := JStr "Rate limit exceeded. Too many requests." ]}]
    /\ rw_header (rw s2) !! "Content-Type"%string = Some "application/json"%string
    /\ (forall next', combinedMiddleware (observed next') r s = Ok tt s2)
    /\ invocations (trace s2) = invocations (trace s).
Proof.
  intros Hrw Hthr HA.
  destruct (throttle_stage_frame r s s1 Hthr) as (_ & _ & _ & Hrw1 & Hinv).
  rewrite Hrw in Hrw1.
  assert (Hany : forall next', combinedMiddleware next' r s =
            rateLimitMiddleware next' r s1).
  { intros next'. rewrite combinedMiddleware_stages, Hthr. reflexivity. }
  eexists. split.
  { rewrite Hany. apply (rateLimitMiddleware_rejected _ _ _ _ HA). }
  rewrite Hrw1. simpl.
  split; [reflexivity|]. split; [reflexivity|].
  split; [apply lookup_insert_eq|].
  split.
  - intros next'. rewrite Hany.
    rewrite (rateLimitMiddleware_rejected _ _ _ _ HA), Hrw1. reflexivity.
  - unfold invocations in *. rewrite List.filter_app, length_app. simpl. lia.
Qed.

End Pipeline.

(** 200 ms of delay in front of an exhausted bucket of 1000 requests per
    hour. *)
Lemma delay_precedes_admission_witness :
  exists s2,
    combinedMiddleware noop sample_request (exhausted (loadConfig hourly_env))
    = Ok tt s2
    /\ trace s2 = [EvSleep 200000000; EvAllow false]
    /\ clock s2 - sample_time = 200000000.
Proof.
  destruct (proj2 (proj2 (delay_precedes_admission noop sample_request
                            (exhausted (loadConfig hourly_env))))
              200 (limiter (exhausted (loadConfig hourly_env))))
    as (s2 & Hrun & Htr & _ & Hclock).
  - reflexivity.
  - reflexivity.
  - vm_compute. reflexivity.
  - exists s2. split; [exact Hrun|]. split; [exact Htr|].
    apply Hclock. vm_compute. split; discriminate.
Defined.

Lemma rejected_request_gets_429_witness :
  exists s2,
    combinedMiddleware (getHandler sample_RFC3339) sample_request
      (exhausted (loadConfig hourly_env)) = Ok tt s2
    /\ statusCode (rw s2) = 429
    /\ rw_body (rw s2) = [rateLimitError]
    /\ invocations (trace s2) = 0%nat.
Proof.
  destruct (rejected_request_gets_429 (getHandler sample_RFC3339)
              sample_request (exhausted (loadConfig hourly_env))
              (slept 200 (exhausted (loadConfig hourly_env)))
              (limiter (exhausted (loadConfig hourly_env))))
    as (s2 & Hrun & Hstatus & Hbody & _ & _ & Hinv).
  - reflexivity.
  - reflexivity.
  - vm_compute. reflexivity.
  - exists s2. auto.
Defined.

(** ** The health report *)

Section Health.
Context {L : Type} `{!RateLimiter L}.
Variable RFC3339 : Z -> string.
Variables postHandler dbGetHandler dbPostHandler : HandlerFunc L.
Implicit Types (r : Request) (s : State L) (cfg : Config).

(** What [healthHandler] does to a fresh response writer. *)
Lemma healthHandler_run r (t : Z) cfg (l : L) (ping : option string)
    (tr : list Event) :
  healthHandler RFC3339 r (mkState t cfg l ping newResponseWriter tr) =
  Ok tt (mkState t cfg l ping
           (let snap := healthSnapshot RFC3339 cfg ping t in
            let st := if ping is Some _ then Some StatusServiceUnavailable
                      else None in
            if encodable snap then
              mkRW {[ "Content-Type" := "application/json" ]}%string
                   (Some (default StatusOK st)) [snap]
            else
              mkRW {[ "Content-Type" := "application/json" ]}%string st [])
           (tr ++ [EvPing ping])).
Proof.
  unfold healthHandler, mbind, M_bind, Header_Set, db_Ping, getConfig,
    time_Now, WriteHeader, json_Encode, with_rw, mret, M_ret.
  cbn [clock config limiter db rw trace rw_header rw_status rw_body
       newResponseWriter].
  destruct ping; cbn [clock config limiter db rw trace rw_header rw_status
                      rw_body];
    destruct (encodable _); reflexivity.
Qed.

(** The handler reads the package-level variables and never writes them;
    it calls neither [time.Sleep] nor [limiter.Allow]. *)
Lemma healthHandler_frame r s :
  exists s',
    healthHandler RFC3339 r s = Ok tt s'
    /\ limiter s' = limiter s /\ config s' = config s
    /\ clock s' = clock s /\ db s' = db s
    /\ trace s' = trace s ++ [EvPing (db s)].
Proof.
  unfold healthHandler, mbind, M_bind, Header_Set, db_Ping, getConfig,
    time_Now, WriteHeader, json_Encode, with_rw, mret, M_ret.
  cbn [clock config limiter db rw trace].
  destruct (db s); eexists; split; try reflexivity; repeat split.
Qed.


Lemma snapshot_disconnected cfg (e : string) (now : Z) :
  e <> EmptyString ->
  healthSnapshot RFC3339 cfg (Some e) now
  = JObj (<["status" := JStr "degraded"]>
            (set_database_error e
               (healthResponse RFC3339 cfg "disconnected" now))).
Proof.
  intros He. unfold healthSnapshot, healthDocument.
  cbn [dbStatusAfter dbErrorAfter].
  destruct (decide (e <> EmptyString)); [reflexivity|contradiction].
Qed.

Lemma snapshot_empty_message cfg (now : Z) :
  healthSnapshot RFC3339 cfg (Some EmptyString) now
  = JObj (healthResponse RFC3339 cfg "disconnected" now).
Proof. reflexivity. Qed.

(** The encoder refuses the snapshot exactly when the period is 0: the
    rate is then infinite or not a number. *)
Lemma healthSnapshot_encodable_iff cfg (ping : option string) (now : Z) :
  encodable (healthSnapshot RFC3339 cfg ping now) = true
  <-> RateLimitPeriod cfg <> 0.
Proof.
  assert (Hrate : encodable (healthSnapshot RFC3339 cfg ping now)
                  = encodable (JFloat (float_div (RateLimitRequests cfg)
                                                 (RateLimitPeriod cfg)))).
  { unfold healthSnapshot, healthDocument, healthResponse.
    generalize (float_div (RateLimitRequests cfg) (RateLimitPeriod cfg)).
    intros rate.
    destruct ping as [e|]; cbn [dbStatusAfter dbErrorAfter];
      [destruct (decide (e <> EmptyString))|];
      destruct rate as [q| | |]; reflexivity. }
  rewrite Hrate. unfold float_div.
  destruct (Z.eqb_spec (RateLimitPeriod cfg) 0) as [->|Hne].
  - split; [|contradiction]. repeat case_match; discriminate.
  - split; [intros _; exact Hne|reflexivity].
Qed.


(** C7. Every snapshot carries the configured [requests] and
    [period_seconds], their quotient [rate_per_second] worked out from
    the configuration in force when the report is made, and the throttle
    bounds with [enabled] set when [ThrottleMaxMs > 0];
    [database.error] appears only in a snapshot whose database is
    disconnected. The handler encodes exactly this snapshot, built from
    the [config] and the clock of the state it runs in. *)
Theorem health_snapshot_fields cfg (ping : option string) (now : Z) :
  let snap := healthSnapshot RFC3339 cfg ping now in
  jpath ["configuration"; "rate_limiting"; "requests"]%string snap
    = Some (JInt (RateLimitRequests cfg))
  /\ jpath ["configuration"; "rate_limiting"; "period_seconds"]%string snap
      = Some (JInt (RateLimitPeriod cfg))
  /\ jpath ["configuration"; "rate_limiting"; "rate_per_second"]%string snap
      = Some (JFloat (float_div (RateLimitRequests cfg) (RateLimitPeriod cfg)))
  /\ jpath ["configuration"; "throttling"; "min_ms"]%string snap
      = Some (JInt (ThrottleMinMs cfg))
  /\ jpath ["configuration"; "throttling"; "max_ms"]%string snap
      = Some (JInt (ThrottleMaxMs cfg))
  /\ (exists enabled : bool,
        jpath ["configuration"; "throttling"; "enabled"]%string snap
          = Some (JBool enabled)
        /\ (enabled = true <-> ThrottleMaxMs cfg > 0))
  /\ (jpath ["database"; "error"]%string snap <> None ->
      jpath ["database"; "status"]%string snap = Some (JStr "disconnected"))
  /\ (forall r (l : L) (tr : list Event),
        exists s',
          healthHandler RFC3339 r (mkState now cfg l ping newResponseWriter tr)
          = Ok tt s'
          /\ rw_body (rw s') = if encodable snap then [snap] else []).
Proof.
  intros snap. subst snap.
  assert (Hcases :
    healthSnapshot RFC3339 cfg ping now
    = JObj (healthResponse RFC3339 cfg
              (if ping is Some _ then "disconnected" else "connected") now)
    \/ exists e, healthSnapshot RFC3339 cfg ping now
        = JObj (<["status" := JStr "degraded"]>
                  (set_database_error e
                     (healthResponse RFC3339 cfg "disconnected" now)))).
  { destruct ping as [e|]; [|left; reflexivity].
    destruct (decide (e = EmptyString)) as [->|He]; [left; reflexivity|].
    right. exists e. apply snapshot_disconnected, He. }
  repeat split.
  1-5: destruct Hcases as [->|[e ->]]; read_snapshot.
  - exists (0 <? ThrottleMaxMs cfg). split.
    + destruct Hcases as [->|[e ->]]; read_snapshot.
    + rewrite Z.ltb_lt. lia.
  - destruct Hcases as [->|[e ->]]; [|intros _; read_snapshot].
    intros Herr. exfalso. apply Herr.
    destruct ping; read_snapshot.
  - intros r l tr. rewrite healthHandler_run. eexists; split; [reflexivity|].
    cbn [rw]. cbv zeta. destruct (encodable _); reflexivity.
Qed.


(** A failed ping whose error has an empty message: the status is 503,
    but the snapshot still says [ok] and has no [database.error]. *)
Lemma health_empty_error_message r (t : Z) cfg (l : L) (tr : list Event) :
  exists s',
    healthHandler RFC3339 r
      (mkState t cfg l (Some EmptyString) newResponseWriter tr) = Ok tt s'
    /\ statusCode (rw s') = 503
    /\ jpath ["status"]%string (healthSnapshot RFC3339 cfg (Some EmptyString) t)
       = Some (JStr "ok")
    /\ jpath ["database"; "error"]%string
         (healthSnapshot RFC3339 cfg (Some EmptyString) t) = None.
Proof.
  rewrite healthHandler_run. eexists. split; [reflexivity|].
  split; [cbn [rw]; cbv zeta; destruct (encodable _); reflexivity|].
  rewrite snapshot_empty_message. split; read_snapshot.
Qed.

(** The body of a health answer is the snapshot exactly when the period
    is not 0. With a period of 0 the rate is infinite or not a number,
    the encoder refuses the snapshot and the answer, still 200 or 503
    by the ping, has an empty body. *)
Theorem health_body_needs_nonzero_period r (t : Z) cfg (l : L)
    (ping : option string) (tr : list Event) :
  exists s',
    healthHandler RFC3339 r (mkState t cfg l ping newResponseWriter tr)
    = Ok tt s'
    /\ statusCode (rw s') = (if ping is Some _ then 503 else 200)
    /\ rw_header (rw s') !! "Content-Type"%string
       = Some "application/json"%string
    /\ (RateLimitPeriod cfg <> 0 ->
        rw_body (rw s') = [healthSnapshot RFC3339 cfg ping t])
    /\ (RateLimitPeriod cfg = 0 -> rw_body (rw s') = [])
    /\ (encodable (healthSnapshot RFC3339 cfg ping t) = true
        <-> RateLimitPeriod cfg <> 0).
Proof.
  pose proof (healthSnapshot_encodable_iff cfg ping t) as Henc.
  rewrite healthHandler_run. eexists. split; [reflexivity|].
  cbn [rw]. cbv zeta.
  destruct (encodable (healthSnapshot RFC3339 cfg ping t)) eqn:E.
  - split; [destruct ping; reflexivity|]. split; [reflexivity|].
    split; [reflexivity|]. split; [|exact Henc].
    intros H0. exfalso. apply (proj1 Henc); [reflexivity|exact H0].
  - split; [destruct ping; reflexivity|]. split; [reflexivity|].
    split; [|split; [reflexivity|exact Henc]].
    intros Hne. apply (proj2 Henc) in Hne. discriminate.
Qed.

(** C8. The health handler leaves [limiter] and [config] (and the
    clock) as they were and calls neither [time.Sleep] nor
    [limiter.Allow]: its only library call in the trace is the ping. The
    [/health] route is the bare handler, outside [combinedMiddleware]. *)
Theorem health_bypasses_pipeline r s (method addr : string) :
  (exists s',
     healthHandler RFC3339 r s = Ok tt s'
     /\ limiter s' = limiter s /\ config s' = config s
     /\ clock s' = clock s
     /\ trace s' = trace s ++ [EvPing (db s)])
  /\ routes RFC3339 postHandler dbGetHandler dbPostHandler !! "/health"%string
     = Some (healthHandler RFC3339)
  /\ (exists s',
        ServeHTTP RFC3339 postHandler dbGetHandler dbPostHandler
          (mkRequest method "/health" addr) s = Some (Ok tt s')
        /\ limiter s' = limiter s /\ config s' = config s
        /\ clock s' = clock s
        /\ trace s' = trace s ++ [EvPing (db s)]).
Proof.
  assert (Hroute :
    routes RFC3339 postHandler dbGetHandler dbPostHandler !! "/health"%string
    = Some (healthHandler RFC3339)).
  { unfold routes. apply lookup_insert_eq. }
  split; [|split; [exact Hroute|]].
  - destruct (healthHandler_frame r s) as (s' & Hrun & Hl & Hc & Ht & _ & Htr).
    exists s'. auto.
  - unfold ServeHTTP. cbn [Path]. unfold M in Hroute |- *.
    rewrite Hroute. cbn [mbind option_bind].
    destruct (healthHandler_frame (mkRequest method "/health" addr)
                (mkState (clock s) (config s) (limiter s) (db s)
                         newResponseWriter (trace s)))
      as (s' & Hrun & Hl & Hc & Ht & _ & Htr).
    exists s'. rewrite Hrun. auto.
Qed.

End Health.

(** ** Configuration loading and start-up *)




(** [getEnv] falls back to the default only for an unset or empty
    variable. *)
Lemma getEnv_set (env : Env) (key def s : string) :
  env !! key = Some s -> s <> EmptyString -> getEnv env key def = s.
Proof.
  intros Hk Hs. unfold getEnv, os_Getenv. rewrite Hk. simpl.
  destruct (decide (s <> EmptyString)); [reflexivity|contradiction].
Qed.


Section Startup.
Context {L : Type} `{!RateLimiter L}.

(** What [main] does, by the answers of the outside world. *)
Lemma main_outcome (env : Env) (initDB listenAndServe : option string)
    (now : Z) (ping : option string) :
  main (L := L) env initDB listenAndServe now ping =
  match initDB, listenAndServe with
  | Some _, _ => Fatal "[FATAL] Failed to initialize database"
  | None, Some _ => Fatal "[FATAL] Server failed to start"
  | None, None =>
      Serving (mkState now (loadConfig env)
                 (NewLimiter
                    (float_div (RateLimitRequests (loadConfig env))
                               (RateLimitPeriod (loadConfig env)))
                    (RateLimitRequests (loadConfig env)))
                 ping newResponseWriter [])
  end.
Proof. unfold main. destruct initDB, listenAndServe; reflexivity. Qed.

(** C5, as the code has it. [main] checks no configuration value: the
    process ends up serving exactly when [initDB] and [ListenAndServe]
    report no error, whatever the period and the throttle bounds are,
    and the limiter is built from the quotient as it comes: for a period
    of 0 the rate is infinite or not a number. *)
Theorem startup_ignores_policy_values (env : Env)
    (initDB listenAndServe : option string) (now : Z) (ping : option string) :
  ((exists s, main (L := L) env initDB listenAndServe now ping = Serving s)
   <-> initDB = None /\ listenAndServe = None)
  /\ main (L := L) env None None now ping
     = Serving (mkState now (loadConfig env)
                  (NewLimiter
                     (float_div (RateLimitRequests (loadConfig env))
                                (RateLimitPeriod (loadConfig env)))
                     (RateLimitRequests (loadConfig env)))
                  ping newResponseWriter [])
  /\ (RateLimitPeriod (loadConfig env) = 0 ->
      forall q, float_div (RateLimitRequests (loadConfig env))
                          (RateLimitPeriod (loadConfig env)) <> Finite q).
Proof.
  split; [|split].
  - rewrite main_outcome. destruct initDB, listenAndServe; split.
    all: try (intros [s Hs]; discriminate).
    all: try (intros [H1 H2]; discriminate).
    + intros _. split; reflexivity.
    + intros _. eexists. reflexivity.
  - apply main_outcome.
  - intros -> q. unfold float_div. cbn [Z.eqb].
    repeat case_match; discriminate.
Qed.


End Startup.

(** C5, as the spec has it, fails: a period of 0, and a minimum delay
    above the maximum, are both served. *)
Lemma bad_policy_is_served :
  (RateLimitPeriod (loadConfig zero_period_env) <= 0
   /\ ~ refuses_to_start TokenBucket.t zero_period_env)
  /\ (ThrottleMinMs (loadConfig inverted_env)
        > ThrottleMaxMs (loadConfig inverted_env)
      /\ ~ refuses_to_start TokenBucket.t inverted_env).
Proof.
  split; (split; [vm_compute; try discriminate; reflexivity|]).
  - intros Hrefuse.
    destruct (Hrefuse None None sample_time None) as [msg Hmsg].
    rewrite main_outcome in Hmsg. discriminate.
  - intros Hrefuse.
    destruct (Hrefuse None None sample_time None) as [msg Hmsg].
    rewrite main_outcome in Hmsg. discriminate.
Qed.

(** [RATE_LIMIT_PERIOD=0]: the server starts, with a limiter of
    infinite rate. *)
Lemma startup_ignores_policy_values_witness :
  main zero_period_env None None sample_time None
  = Serving (mkState sample_time (loadConfig zero_period_env)
               (TokenBucket.new PosInf 10) None newResponseWriter [])
  /\ forall q,
       float_div (RateLimitRequests (loadConfig zero_period_env))
                 (RateLimitPeriod (loadConfig zero_period_env)) <> Finite q.
Proof.
  destruct (startup_ignores_policy_values (L := TokenBucket.t)
              zero_period_env None None sample_time None)
    as (_ & Hmain & Hrate).
  split; [exact Hmain|]. apply Hrate. reflexivity.
Defined.


(** ** Requests in a row *)

Section EndToEnd.
Context {L : Type} `{!RateLimiter L}.
Variable RFC3339 : Z -> string.
Variables postHandler dbGetHandler dbPostHandler : HandlerFunc L.
Implicit Types (r : Request) (s : State L).

Lemma getHandler_run (r : Request) (t : Z) (cfg : Config) (l : L)
    (ping : option string) (tr : list Event) :
  exists s',
    getHandler RFC3339 r (mkState t cfg l ping newResponseWriter tr) = Ok tt s'
    /\ statusCode (rw s') = 200
    /\ config s' = cfg /\ limiter s' = l /\ db s' = ping.
Proof.
  unfold getHandler, mbind, M_bind, Header_Set, time_Now, json_Encode, with_rw.
  cbn [clock config limiter db rw trace rw_header rw_status rw_body
       newResponseWriter].
  eexists. split; [reflexivity|]. repeat split.
Qed.

(** One request to [/api/get] with throttling off: 200 when the limiter
    admits it, 429 when it does not. *)
Lemma serve_api_get (method addr : string) s :
  ThrottleMaxMs (config s) <= 0 ->
  exists s',
    ServeHTTP RFC3339 postHandler dbGetHandler dbPostHandler
      (mkRequest method "/api/get" addr) s = Some (Ok tt s')
    /\ statusCode (rw s')
       = (if fst (Allow (clock s) (limiter s)) then 200 else 429)
    /\ config s' = config s
    /\ limiter s' = snd (Allow (clock s) (limiter s))
    /\ db s' = db s.
Proof.
  intros Hoff.
  assert (Hroute :
    routes RFC3339 postHandler dbGetHandler dbPostHandler !! "/api/get"%string
    = Some (combinedMiddleware (getHandler RFC3339))).
  { unfold routes. rewrite lookup_insert_ne by discriminate.
    apply lookup_insert_eq. }
  unfold ServeHTTP. cbn [Path]. unfold M in Hroute |- *. rewrite Hroute.
  cbn [mbind option_bind].
  rewrite combinedMiddleware_stages, throttle_stage. cbn [config].
  destruct (Z.ltb_spec 0 (ThrottleMaxMs (config s))); [lia|].
  destruct (Allow (clock s) (limiter s)) as [[|] l'] eqn:HA.
  - rewrite (rateLimitMiddleware_allowed _ _ _ l') by exact HA.
    cbn [clock config limiter db rw trace].
    destruct (getHandler_run (mkRequest method "/api/get" addr) (clock s)
                (config s) l' (db s) (trace s ++ [EvAllow true]))
      as (s' & Hrun & Hst & Hc & Hl & Hd).
    exists s'. rewrite Hrun. auto.
  - rewrite (rateLimitMiddleware_rejected _ _ _ l') by exact HA.
    eexists. split; [reflexivity|]. repeat split.
Qed.

(** With throttling off, the statuses of requests to [/api/get] are the
    limiter's answers at the arrival times. *)
Lemma served_statuses (method addr : string) (times : list Z) :
  forall s,
    ThrottleMaxMs (config s) <= 0 ->
    serveAll RFC3339 postHandler dbGetHandler dbPostHandler
      (map (fun now => (now, mkRequest method "/api/get" addr)) times) s
    = map (fun ok : bool => Some (if ok then 200 else 429))
          (decisions times (limiter s)).
Proof.
  induction times as [|now rest IH]; intros s Hoff; [reflexivity|].
  cbn [map serveAll decisions].
  destruct (serve_api_get method addr
              (mkState now (config s) (limiter s) (db s) (rw s) (trace s))
              Hoff) as (s' & Hrun & Hst & Hc & Hl & _).
  rewrite Hrun. cbn [clock limiter] in Hst, Hl.
  destruct (Allow now (limiter s)) as [ok l'].
  cbn [fst snd] in Hst, Hl. cbn [map]. rewrite Hst.
  rewrite IH by (rewrite Hc; exact Hoff). rewrite Hl. reflexivity.
Qed.

End EndToEnd.

Lemma TokenBucket_run_decisions (times : list Z) :
  forall l : TokenBucket.t, decisions times l = TokenBucket.run times l.
Proof.
  induction times as [|now rest IH]; intros l; [reflexivity|].
  cbn [decisions TokenBucket.run]. cbn [Allow TokenBucket_RateLimiter].
  destruct (TokenBucket.TryAcquire now l). rewrite IH. reflexivity.
Qed.

(** Spec, section 8: capacity 10, period 1 s, throttling off: ten
    requests in a row get 200, the eleventh gets 429. More generally,
    [C + 1] requests inside one refill window after start-up. *)
Theorem burst_gets_200_then_429
    (RFC3339 : Z -> string)
    (postHandler dbGetHandler dbPostHandler : HandlerFunc TokenBucket.t)
    (env : Env) (now : Z) (ping : option string)
    (s : State TokenBucket.t) (method addr : string)
    (t1 : Z) (rest : list Z) :
  main env None None now ping = Serving s ->
  0 < RateLimitRequests (config s) ->
  0 < RateLimitPeriod (config s) ->
  ThrottleMaxMs (config s) <= 0 ->
  length rest = Z.to_nat (RateLimitRequests (config s)) ->
  StronglySorted Z.le (t1 :: rest) ->
  Forall (within_refill_window
            (RateLimitRequests (config s)) (RateLimitPeriod (config s)) t1)
         rest ->
  serveAll RFC3339 postHandler dbGetHandler dbPostHandler
    (map (fun t => (t, mkRequest method "/api/get" addr)) (t1 :: rest)) s
  = replicate (Z.to_nat (RateLimitRequests (config s))) (Some 200)
    ++ [Some 429].
Proof.
  intros Hmain HC HP Hoff Hlen Hs Hw.
  rewrite served_statuses by exact Hoff.
  rewrite TokenBucket_run_decisions.
  assert (Hl : limiter s
               = TokenBucket.new
                   (float_div (RateLimitRequests (config s))
                              (RateLimitPeriod (config s)))
                   (RateLimitRequests (config s))).
  { rewrite main_outcome in Hmain. injection Hmain as <-. reflexivity. }
  rewrite Hl.
  rewrite (burst_from_full _ _ HC HP t1 rest Hlen Hs Hw).
  rewrite map_app, fmap_replicate. reflexivity.
Qed.

(** ** Where the statements stop *)

(** A request the limiter admits reaches the downstream handler once,
    in the state the two stages leave, and its outcome is the
    pipeline's. *)
Lemma admitted_request_reaches_handler {L : Type} `{!RateLimiter L}
    (next : HandlerFunc L) (r : Request) (s s1 : State L) (l' : L) :
  throttleMiddleware noop r s = Ok tt s1 ->
  Allow (clock s1) (limiter s1) = (true, l') ->
  combinedMiddleware next r s
  = next r (mkState (clock s1) (config s1) l' (db s1) (rw s1)
              (trace s1 ++ [EvAllow true])).
Proof.
  intros Hthr HA. rewrite combinedMiddleware_stages, Hthr.
  apply rateLimitMiddleware_allowed, HA.
Qed.

(** The refill window is shorter than the period: with 2 requests per
    second, a third call 600 ms after a burst of two is admitted. *)
Lemma third_call_after_refill :
  TokenBucket.run [0; 0; 600000000] (TokenBucket.new (float_div 2 1) 2)
  = [true; true; true].
Proof. vm_compute. reflexivity. Qed.

(** The interval of the delay needs a clock after the epoch: on a
    machine whose clock reads one nanosecond before 1970 the remainder
    is negative and the delay of the README's 1000 to 3000 ms
    configuration is 999 ms. *)
Lemma delay_before_the_epoch :
  throttleDelay (loadConfig sample_env) (-1) = Some 999.
Proof. vm_compute. reflexivity. Qed.



Lemma health_snapshot_fields_witness :
  jpath ["configuration"; "rate_limiting"; "rate_per_second"]%string
    (healthSnapshot sample_RFC3339 (loadConfig sample_env) None sample_time)
  = Some (JFloat (Finite 5))
  /\ jpath ["database"; "status"]%string
       (healthSnapshot sample_RFC3339 (loadConfig sample_env)
          (Some "connection refused"%string) sample_time)
     = Some (JStr "disconnected").
Proof.
  split.
  - apply (health_snapshot_fields sample_RFC3339 (L := TokenBucket.t)
             (loadConfig sample_env) None sample_time).
  - apply (health_snapshot_fields sample_RFC3339 (L := TokenBucket.t)
             (loadConfig sample_env) (Some "connection refused"%string)
             sample_time).
    vm_compute. discriminate.
Defined.

Lemma admitted_request_reaches_handler_witness :
  combinedMiddleware (getHandler sample_RFC3339) sample_request
    (started plain_env)
  = getHandler sample_RFC3339 sample_request
      (mkState sample_time (loadConfig plain_env)
         (TokenBucket.mk (Finite 5) 5 4 (Some sample_time))
         None newResponseWriter [EvAllow true]).
Proof.
  apply (admitted_request_reaches_handler (getHandler sample_RFC3339)
           sample_request (started plain_env) (started plain_env)).
  - reflexivity.
  - vm_compute. reflexivity.
Defined.

(** Six requests within 150 ms of start-up, 5 requests per second. *)
Lemma burst_gets_200_then_429_witness :
  serveAll sample_RFC3339 noop noop noop
    (map (fun t => (t, sample_request))
         [sample_time; sample_time; sample_time + 1000000;
          sample_time + 1000000; sample_time + 90000000;
          sample_time + 150000000])
    (started plain_env)
  = [Some 200; Some 200; Some 200; Some 200; Some 200; Some 429].
Proof.
  apply (burst_gets_200_then_429 sample_RFC3339 noop noop noop plain_env
           sample_time None (started plain_env) "GET" "10.0.0.7:51234"
           sample_time
           [sample_time; sample_time + 1000000; sample_time + 1000000;
            sample_time + 90000000; sample_time + 150000000]).
  - reflexivity.
  - vm_compute; reflexivity.
  - vm_compute; reflexivity.
  - vm_compute; discriminate.
  - reflexivity.
  - unfold sample_time. repeat constructor; lia.
  - unfold within_refill_window, sample_time.
    repeat constructor; vm_compute; reflexivity.
Defined.

(** ** [initDB] *)

Section InitDB.
Variable pg : Postgres.

(** While every ping fails the loop runs to its end: it returns the
    error of the last ping and has slept two seconds per ping. *)
Lemma waitForDatabase_all_fail (retries : nat) :
  forall (i : nat) (err : option string) (slept : Z),
    (forall j, (i <= j < i + retries)%nat -> db_Ping_at pg j <> None) ->
    waitForDatabase pg retries i err slept
    = (match retries with
       | O => err
       | S n => db_Ping_at pg (i + n)
       end, (i + retries)%nat, slept + 2 * Second * Z.of_nat retries).
Proof.
  induction retries as [|n IH]; intros i err slept Hfail.
  - cbn [waitForDatabase]. apply (f_equal2 pair); [apply (f_equal2 pair)|]; try reflexivity; lia.
  - cbn [waitForDatabase].
    destruct (db_Ping_at pg i) as [e|] eqn:Hi;
      [|exfalso; apply (Hfail i); [lia|exact Hi]].
    rewrite IH by (intros j Hj; apply Hfail; lia).
    destruct n as [|m].
    + rewrite !Nat.add_0_r, Hi. apply (f_equal2 pair); [apply (f_equal2 pair)|]; try reflexivity; lia.
    + replace (S i + m)%nat with (i + S m)%nat by lia. apply (f_equal2 pair); [apply (f_equal2 pair)|]; try reflexivity; lia.
Qed.

(** The loop stops at the first ping that succeeds. *)
Lemma waitForDatabase_first_ok (retries : nat) :
  forall (i k : nat) (err : option string) (slept : Z),
    (k < retries)%nat ->
    (forall j, (i <= j < i + k)%nat -> db_Ping_at pg j <> None) ->
    db_Ping_at pg (i + k) = None ->
    waitForDatabase pg retries i err slept
    = (None, S (i + k), slept + 2 * Second * Z.of_nat k).
Proof.
  induction retries as [|n IH]; intros i k err slept Hk Hfail Hok; [lia|].
  cbn [waitForDatabase]. destruct k as [|k'].
  - rewrite Nat.add_0_r in Hok |- *. rewrite Hok. apply (f_equal2 pair); [apply (f_equal2 pair)|]; try reflexivity; lia.
  - destruct (db_Ping_at pg i) as [e|] eqn:Hi;
      [|exfalso; apply (Hfail i); [lia|exact Hi]].
    rewrite (IH (S i) k') by
      (try lia; try (intros j Hj; apply Hfail; lia);
       replace (S i + k')%nat with (i + S k')%nat by lia; exact Hok).
    apply (f_equal2 pair); [apply (f_equal2 pair)|]; try reflexivity; lia.
Qed.

(** Either the first [n] pings all fail, or one of them is the first
    to succeed. *)
Lemma first_successful_ping (n : nat) :
  (forall j, (j < n)%nat -> db_Ping_at pg j <> None)
  \/ exists k, (k < n)%nat /\ db_Ping_at pg k = None
               /\ forall j, (j < k)%nat -> db_Ping_at pg j <> None.
Proof.
  induction n as [|n [Hfail|(k & Hk & Hok & Hmin)]].
  - left. intros j Hj. lia.
  - destruct (db_Ping_at pg n) as [e|] eqn:Hn.
    + left. intros j Hj. destruct (decide (j = n)) as [->|Hne].
      * rewrite Hn. discriminate.
      * apply Hfail. lia.
    + right. exists n. split; [lia|]. split; [exact Hn|exact Hfail].
  - right. exists k. split; [lia|]. split; assumption.
Qed.

Lemma initDB_outcome_first_ok (cfg : Config) (k : nat) :
  sql_Open pg (connStr cfg) = None ->
  (k < 30)%nat ->
  (forall j, (j < k)%nat -> db_Ping_at pg j <> None) ->
  db_Ping_at pg k = None ->
  initDB pg cfg
  = mkInitRun (db_Exec_create pg) (S k) (2 * Second * Z.of_nat k) true.
Proof.
  intros Hopen Hk Hfail Hok. unfold initDB. rewrite Hopen.
  rewrite (waitForDatabase_first_ok maxRetries 0 k None 0)
    by (try exact Hk; try exact Hok; intros j Hj; apply Hfail; lia).
  reflexivity.
Qed.

(** With the database up at its [k]-th ping ([k < 30], counting from 0,
    the earlier ones refused), [initDB] sends [k + 1] pings, sleeps
    [2 k] seconds, then sends the CREATE TABLE statement and returns its
    error. *)
Theorem initDB_waits_for_database (cfg : Config) (k : nat) :
  sql_Open pg (connStr cfg) = None ->
  (k < 30)%nat ->
  (forall j, (j < k)%nat -> db_Ping_at pg j <> None) ->
  db_Ping_at pg k = None ->
  initDB pg cfg
  = mkInitRun (db_Exec_create pg) (S k) (2 * Second * Z.of_nat k) true.
Proof. apply initDB_outcome_first_ok. Qed.

(** When the first thirty pings all fail, [initDB] gives up: it returns
    the error of the thirtieth ping after sixty seconds of sleep (it
    sleeps after the last failure too) and never sends the CREATE TABLE
    statement. *)
Theorem initDB_gives_up (cfg : Config) :
  sql_Open pg (connStr cfg) = None ->
  (forall j, (j < 30)%nat -> db_Ping_at pg j <> None) ->
  initDB pg cfg = mkInitRun (db_Ping_at pg 29) 30 (60 * Second) false
  /\ init_err (initDB pg cfg) <> None.
Proof.
  intros Hopen Hfail. unfold initDB. rewrite Hopen.
  rewrite (waitForDatabase_all_fail maxRetries 0 None 0)
    by (intros j Hj; apply Hfail; unfold maxRetries in Hj; lia).
  cbn [maxRetries Nat.add].
  destruct (db_Ping_at pg 29) as [e|] eqn:H29.
  - split; [reflexivity|discriminate].
  - exfalso. apply (Hfail 29%nat); [lia|exact H29].
Qed.

(** [initDB] returns no error exactly when [sql.Open] accepts the
    connection string, one of the first thirty pings succeeds and the
    table can be created; [main] gets past it in exactly that case. *)
Theorem initDB_succeeds_iff (cfg : Config) :
  (init_err (initDB pg cfg) = None
   <-> sql_Open pg (connStr cfg) = None
       /\ (exists k, (k < 30)%nat /\ db_Ping_at pg k = None)
       /\ db_Exec_create pg = None)
  /\ (forall (L : Type) (HL : RateLimiter L) (env : Env) (now : Z)
             (ping : option string),
        (exists s : State L,
           main env (init_err (initDB pg (loadConfig env))) None now ping
           = Serving s)
        <-> init_err (initDB pg (loadConfig env)) = None).
Proof.
  split; [|intros L HL env now ping; rewrite main_outcome;
           destruct (init_err _); split;
           [intros [x Hx]; discriminate|discriminate
           |intros _; reflexivity|intros _; eexists; reflexivity]].
  destruct (first_successful_ping 30) as [Hfail|(k & Hk & Hok & Hmin)].
  - split.
    + intros Herr. exfalso. unfold initDB in Herr.
      destruct (sql_Open pg (connStr cfg)) as [e|]; [discriminate|].
      rewrite (waitForDatabase_all_fail maxRetries 0 None 0) in Herr
        by (intros j Hj; apply Hfail; unfold maxRetries in Hj; lia).
      cbn [maxRetries Nat.add] in Herr.
      destruct (db_Ping_at pg 29) as [e|] eqn:H29; [discriminate|].
      apply (Hfail 29%nat); [lia|exact H29].
    + intros (_ & (j & Hj & Hnone) & _). exfalso. exact (Hfail j Hj Hnone).
  - split.
    + intros Herr.
      destruct (sql_Open pg (connStr cfg)) as [e|] eqn:Hopen.
      * unfold initDB in Herr. rewrite Hopen in Herr. discriminate.
      * rewrite (initDB_outcome_first_ok cfg k Hopen Hk Hmin Hok) in Herr.
        split; [reflexivity|]. split; [eauto|exact Herr].
    + intros (Hopen & _ & Hexec).
      rewrite (initDB_outcome_first_ok cfg k Hopen Hk Hmin Hok). exact Hexec.
Qed.

End InitDB.

(** A database that answers its fourth ping: four pings, six seconds. *)
Lemma initDB_waits_for_database_witness :
  initDB (up_after 3) (loadConfig sample_env)
  = mkInitRun None 4 6000000000 true.
Proof.
  apply (initDB_waits_for_database (up_after 3) (loadConfig sample_env) 3).
  - reflexivity.
  - lia.
  - intros j Hj. cbn [up_after db_Ping_at].
    destruct (Nat.ltb_spec j 3); [discriminate|lia].
  - reflexivity.
Defined.

(** A database that would answer its forty-sixth ping. *)
Lemma initDB_gives_up_witness :
  initDB (up_after 45) (loadConfig sample_env)
  = mkInitRun (Some "connection refused"%string) 30 60000000000 false.
Proof.
  apply (initDB_gives_up (up_after 45) (loadConfig sample_env)).
  - reflexivity.
  - intros j Hj. cbn [up_after db_Ping_at].
    destruct (Nat.ltb_spec j 45); [discriminate|lia].
Defined.

(** ** More on configuration loading *)

Lemma Atoi_in_int (s : string) : in_int (fst (Atoi s)).
Proof.
  assert (H0 : in_int 0) by (unfold in_int, int_min, int_max; lia).
  unfold Atoi.
  set (split := match s with
                | EmptyString => (false, s)
                | String a r =>
                    if Ascii.eqb a "+" then (false, r)
                    else if Ascii.eqb a "-" then (true, r) else (false, s)
                end).
  destruct split as [neg digits].
  destruct digits as [|b ds]; [exact H0|].
  destruct (parse_digits 0 (String b ds)) as [n|]; [|exact H0].
  destruct (Z.ltb_spec (if neg then - n else n) int_min);
    [cbn [fst]; unfold in_int, int_min, int_max; lia|].
  destruct (Z.ltb_spec int_max (if neg then - n else n));
    cbn [fst]; unfold in_int, int_min, int_max in *; lia.
Qed.

Lemma loadConfig_fields_in_int (env : Env) :
  in_int (RateLimitRequests (loadConfig env))
  /\ in_int (RateLimitPeriod (loadConfig env))
  /\ in_int (ThrottleMinMs (loadConfig env))
  /\ in_int (ThrottleMaxMs (loadConfig env)).
Proof. repeat split; apply Atoi_in_int. Qed.

(** Reading back what the decimal printer writes. *)
Lemma parse_digits_after (d : Decimal.uint) :
  forall p : positive,
    parse_digits (Z.pos p) (DecimalString.NilEmpty.string_of_uint d)
    = Some (Z.pos (Pos.of_uint_acc d p)).
Proof.
  induction d as [|d IH|d IH|d IH|d IH|d IH|d IH|d IH|d IH|d IH|d IH];
    intros p; cbn [DecimalString.NilEmpty.string_of_uint parse_digits
                   Pos.of_uint_acc]; [reflexivity|..];
    match goal with
    | |- context [digit_of ?a] =>
        let v := eval vm_compute in (digit_of a) in
        change (digit_of a) with v
    end; cbv iota beta; rewrite <- IH; f_equal; lia.
Qed.

Lemma parse_digits_uint (d : Decimal.uint) :
  parse_digits 0 (DecimalString.NilEmpty.string_of_uint d)
  = Some (Z.of_N (Pos.of_uint d)).
Proof.
  induction d as [|d IH|d IH|d IH|d IH|d IH|d IH|d IH|d IH|d IH|d IH];
    cbn [DecimalString.NilEmpty.string_of_uint parse_digits Pos.of_uint];
    [reflexivity|..];
    match goal with
    | |- context [digit_of ?a] =>
        let v := eval vm_compute in (digit_of a) in
        change (digit_of a) with v
    end; cbv iota beta;
    [exact IH|apply (parse_digits_after d)..].
Qed.

(** A printed natural number starts with a digit. *)
Lemma string_of_uint_head (d : Decimal.uint) :
  d <> Decimal.Nil ->
  exists a r,
    DecimalString.NilEmpty.string_of_uint d = String a r
    /\ Ascii.eqb a "+" = false /\ Ascii.eqb a "-" = false.
Proof.
  intros Hd. destruct d; [contradiction|..];
    cbn [DecimalString.NilEmpty.string_of_uint];
    eexists; eexists; (split; [reflexivity|split; reflexivity]).
Qed.

Lemma Atoi_unsigned (a : ascii) (r : string) (n : Z) :
  Ascii.eqb a "+" = false -> Ascii.eqb a "-" = false ->
  parse_digits 0 (String a r) = Some n ->
  fst (Atoi (String a r)) = Z.max int_min (Z.min int_max n).
Proof.
  intros Hplus Hminus Hp. unfold Atoi. rewrite Hplus, Hminus, Hp.
  destruct (Z.ltb_spec n int_min);
    [cbn [fst]; unfold int_min, int_max in *; lia|].
  destruct (Z.ltb_spec int_max n);
    cbn [fst]; unfold int_min, int_max in *; lia.
Qed.

Lemma Atoi_negative (a : ascii) (r : string) (n : Z) :
  parse_digits 0 (String a r) = Some n ->
  fst (Atoi (String "-" (String a r))) = Z.max int_min (Z.min int_max (- n)).
Proof.
  intros Hp. unfold Atoi.
  change (Ascii.eqb "-" "+") with false.
  change (Ascii.eqb "-" "-") with true. cbv iota. rewrite Hp.
  destruct (Z.ltb_spec (- n) int_min);
    [cbn [fst]; unfold int_min, int_max in *; lia|].
  destruct (Z.ltb_spec int_max (- n));
    cbn [fst]; unfold int_min, int_max in *; lia.
Qed.

Lemma string_of_pos (p : positive) :
  DecimalString.NilZero.string_of_uint (Pos.to_uint p)
  = DecimalString.NilEmpty.string_of_uint (Pos.to_uint p).
Proof.
  pose proof (DecimalPos.Unsigned.to_uint_nonnil p) as Hp.
  destruct (Pos.to_uint p); [contradiction|reflexivity..].
Qed.

(** [strconv.Atoi] reads a printed integer back, up to the range of
    [int]. *)
Lemma Atoi_decimal (n : Z) :
  fst (Atoi (decimal n)) = Z.max int_min (Z.min int_max n)
  /\ decimal n <> EmptyString.
Proof.
  unfold decimal. destruct n as [|p|p]; cbn [Z.to_int];
    cbn [DecimalString.NilZero.string_of_int].
  - split; [reflexivity|discriminate].
  - rewrite string_of_pos.
    destruct (string_of_uint_head (Pos.to_uint p)
                (DecimalPos.Unsigned.to_uint_nonnil p))
      as (a & r & Hs & Hplus & Hminus).
    pose proof (parse_digits_uint (Pos.to_uint p)) as Hparse.
    rewrite DecimalPos.Unsigned.of_to in Hparse. rewrite Hs in Hparse |- *.
    split; [|discriminate].
    exact (Atoi_unsigned a r (Z.pos p) Hplus Hminus Hparse).
  - rewrite string_of_pos.
    destruct (string_of_uint_head (Pos.to_uint p)
                (DecimalPos.Unsigned.to_uint_nonnil p))
      as (a & r & Hs & _ & _).
    pose proof (parse_digits_uint (Pos.to_uint p)) as Hparse.
    rewrite DecimalPos.Unsigned.of_to in Hparse. rewrite Hs in Hparse |- *.
    split; [|discriminate].
    exact (Atoi_negative a r (Z.pos p) Hparse).
Qed.

Lemma getEnv_decimal (env : Env) (k def : string) (n : Z) :
  fst (Atoi (getEnv (<[k := decimal n]> env) k def))
  = Z.max int_min (Z.min int_max n).
Proof.
  rewrite (getEnv_set _ k def (decimal n)).
  - apply Atoi_decimal.
  - apply lookup_insert_eq.
  - apply Atoi_decimal.
Qed.

(** A numeric setting written as the decimal numeral of an integer [n]
    is read as [n] when [n] is a value of Go's [int], and as the nearest
    bound when it is not (the range error is dropped); so the four
    numeric fields are values of [int] whatever the environment
    holds. *)
Theorem loadConfig_reads_decimal_numbers (env : Env) (n : Z) :
  let nearest := Z.max int_min (Z.min int_max n) in
  RateLimitRequests (loadConfig (<["RATE_LIMIT_REQUESTS" := decimal n]> env))
  = nearest
  /\ RateLimitPeriod (loadConfig (<["RATE_LIMIT_PERIOD" := decimal n]> env))
     = nearest
  /\ ThrottleMinMs (loadConfig (<["THROTTLE_MIN_MS" := decimal n]> env))
     = nearest
  /\ ThrottleMaxMs (loadConfig (<["THROTTLE_MAX_MS" := decimal n]> env))
     = nearest
  /\ (in_int n -> nearest = n)
  /\ (n < int_min -> nearest = int_min)
  /\ (int_max < n -> nearest = int_max)
  /\ in_int (RateLimitRequests (loadConfig env))
  /\ in_int (RateLimitPeriod (loadConfig env))
  /\ in_int (ThrottleMinMs (loadConfig env))
  /\ in_int (ThrottleMaxMs (loadConfig env)).
Proof.
  intros nearest. subst nearest.
  split; [apply getEnv_decimal|]. split; [apply getEnv_decimal|].
  split; [apply getEnv_decimal|]. split; [apply getEnv_decimal|].
  split; [unfold in_int, int_min, int_max; lia|].
  split; [unfold int_min, int_max; lia|].
  split; [unfold int_min, int_max; lia|].
  apply loadConfig_fields_in_int.
Qed.

Lemma getEnv_empty_is_unset (env : Env) (k key def : string) :
  getEnv (<[k := EmptyString]> env) key def = getEnv (delete k env) key def.
Proof.
  unfold getEnv, os_Getenv. destruct (decide (k = key)) as [->|Hne].
  - rewrite lookup_insert_eq, lookup_delete_eq. reflexivity.
  - rewrite lookup_insert_ne, lookup_delete_ne by exact Hne. reflexivity.
Qed.

(** A variable set to the empty string is a variable that is not set:
    the configuration is the same, for every variable and every
    environment. *)
Theorem loadConfig_empty_is_unset (env : Env) (k : string) :
  loadConfig (<[k := EmptyString]> env) = loadConfig (delete k env).
Proof.
  unfold loadConfig. rewrite !getEnv_empty_is_unset. reflexivity.
Qed.

Lemma getEnv_other (env : Env) (k v key def : string) :
  k <> key -> getEnv (<[k := v]> env) key def = getEnv env key def.
Proof.
  intros Hne. unfold getEnv, os_Getenv. rewrite lookup_insert_ne by exact Hne.
  reflexivity.
Qed.

(** [loadConfig] reads its ten variables and nothing else: setting any
    other variable leaves the configuration as it was. *)
Theorem loadConfig_reads_only_its_keys (env : Env) (k v : string) :
  k ∉ config_keys ->
  loadConfig (<[k := v]> env) = loadConfig env.
Proof.
  intros Hk. unfold config_keys in Hk.
  repeat (apply not_elem_of_cons in Hk as [? Hk]).
  unfold loadConfig. rewrite !(getEnv_other env k v) by assumption.
  reflexivity.
Qed.

Lemma loadConfig_reads_only_its_keys_witness :
  loadConfig (<["HOME" := "/root"%string]> sample_env) = loadConfig sample_env.
Proof.
  apply (loadConfig_reads_only_its_keys sample_env "HOME" "/root").
  unfold config_keys. intros Hin.
  repeat (apply elem_of_cons in Hin as [Hin|Hin]; [discriminate|]).
  apply elem_of_nil in Hin. exact Hin.
Defined.

(** A variable that is unset or empty gets the default of the
    documentation's table. *)
Theorem unset_settings_take_defaults (env : Env) :
  (os_Getenv env "PORT" = EmptyString -> Port (loadConfig env) = "8888"%string)
  /\ (os_Getenv env "DB_HOST" = EmptyString ->
      DBHost (loadConfig env) = "postgres"%string)
  /\ (os_Getenv env "DB_PORT" = EmptyString ->
      DBPort (loadConfig env) = "5432"%string)
  /\ (os_Getenv env "DB_USER" = EmptyString ->
      DBUser (loadConfig env) = "postgres"%string)
  /\ (os_Getenv env "DB_PASSWORD" = EmptyString ->
      DBPassword (loadConfig env) = "postgres"%string)
  /\ (os_Getenv env "DB_NAME" = EmptyString ->
      DBName (loadConfig env) = "apidb"%string)
  /\ (os_Getenv env "RATE_LIMIT_REQUESTS" = EmptyString ->
      RateLimitRequests (loadConfig env) = 10)
  /\ (os_Getenv env "RATE_LIMIT_PERIOD" = EmptyString ->
      RateLimitPeriod (loadConfig env) = 1)
  /\ (os_Getenv env "THROTTLE_MIN_MS" = EmptyString ->
      ThrottleMinMs (loadConfig env) = 0)
  /\ (os_Getenv env "THROTTLE_MAX_MS" = EmptyString ->
      ThrottleMaxMs (loadConfig env) = 0).
Proof.
  unfold loadConfig, getEnv; cbn [Port DBHost DBPort DBUser DBPassword DBName
    RateLimitRequests RateLimitPeriod ThrottleMinMs ThrottleMaxMs].
  repeat split; intros ->; reflexivity.
Qed.

(** Only the throttle bounds are set: the other eight fields are the
    defaults. *)
Lemma unset_settings_take_defaults_witness :
  Port (loadConfig fixed_env) = "8888"%string
  /\ RateLimitRequests (loadConfig fixed_env) = 10
  /\ RateLimitPeriod (loadConfig fixed_env) = 1.
Proof.
  destruct (unset_settings_take_defaults fixed_env)
    as (HP & _ & _ & _ & _ & _ & HR & HQ & _).
  split; [apply HP; reflexivity|]. split; [apply HR|apply HQ]; reflexivity.
Defined.

(** ** More on the throttle stage *)

Section ThrottleMore.
Context {L : Type}.
Implicit Types (next : HandlerFunc L) (r : Request) (s : State L).

Lemma jitter_is_residue (n lo hi : Z) :
  0 <= n < 2 ^ 63 -> 0 <= lo < hi -> hi <= int_max ->
  go_rem n (wrap (hi - lo + 1)) = Some (n mod (hi - lo + 1)).
Proof.
  unfold int_max. intros Hn Hlo Hhi. unfold go_rem.
  destruct (Z.eq_dec (hi - lo + 1) (2 ^ 63)) as [E|E].
  - rewrite E. change (wrap (2 ^ 63)) with (- 2 ^ 63).
    change (- 2 ^ 63 =? 0) with false.
    rewrite Z.rem_opp_r by lia. rewrite Z.rem_small by lia.
    rewrite Z.mod_small by lia. reflexivity.
  - rewrite wrap_id by (unfold in_int, int_min, int_max; lia).
    destruct (Z.eqb_spec (hi - lo + 1) 0); [lia|].
    rewrite Z.rem_mod_nonneg by lia. reflexivity.
Qed.

(** The "random" delay is the clock: for bounds [0 <= min < max] and a
    clock after the epoch the delay is [min] plus the clock reading
    modulo the number of values from [min] to [max], so it repeats with
    that period in nanoseconds, and every value from [min] to [max] is
    the delay at some clock reading. *)
Theorem throttle_delay_is_clock_residue next r s :
  0 <= ThrottleMinMs (config s) < ThrottleMaxMs (config s) ->
  ThrottleMaxMs (config s) <= int_max ->
  after_epoch (clock s) ->
  let width := ThrottleMaxMs (config s) - ThrottleMinMs (config s) + 1 in
  throttleMiddleware next r s
  = next r (slept (ThrottleMinMs (config s) + clock s mod width) s)
  /\ (forall now, after_epoch now -> after_epoch (now + width) ->
        throttleDelay (config s) (now + width) = throttleDelay (config s) now)
  /\ (forall d, ThrottleMinMs (config s) <= d <= ThrottleMaxMs (config s) ->
        throttleDelay (config s) (d - ThrottleMinMs (config s)) = Some d).
Proof.
  intros Hlo Hhi Hnow width.
  assert (Hdelay : forall now, after_epoch now ->
            throttleDelay (config s) now
            = Some (ThrottleMinMs (config s) + now mod width)).
  { intros now Hn. unfold throttleDelay, UnixNano.
    destruct (Z.eqb_spec (ThrottleMinMs (config s)) (ThrottleMaxMs (config s)));
      [lia|].
    rewrite (wrap_id now)
      by (unfold after_epoch in Hn; unfold in_int, int_min, int_max; lia).
    rewrite (jitter_is_residue now _ _ Hn Hlo Hhi). fold width.
    pose proof (Z.mod_pos_bound now width ltac:(unfold width; lia)).
    rewrite wrap_id; [reflexivity|].
    unfold in_int, int_min, int_max in *. unfold width in *. lia. }
  split; [|split].
  - rewrite throttleMiddleware_unfold, (Hdelay _ Hnow).
    destruct (Z.ltb_spec 0 (ThrottleMaxMs (config s))); [reflexivity|lia].
  - intros now Hn Hn'. rewrite (Hdelay _ Hn), (Hdelay _ Hn').
    replace (now + width) with (now + 1 * width) by lia.
    rewrite Z.mod_add by (unfold width; lia). reflexivity.
  - intros d Hd.
    rewrite Hdelay
      by (unfold after_epoch, int_max in *; lia).
    rewrite Z.mod_small by (unfold width; lia). f_equal. lia.
Qed.

(** Before the epoch the remainder is negative or zero: for bounds
    [0 <= min < max] the delay then lies between [2 min - max] and
    [min], and below [min] unless the clock reading is a multiple of the
    number of values. *)
Theorem delay_before_epoch_is_below_min (cfg : Config) (now : Z) :
  0 <= ThrottleMinMs cfg < ThrottleMaxMs cfg ->
  ThrottleMaxMs cfg <= int_max ->
  ThrottleMaxMs cfg - ThrottleMinMs cfg + 1 <= int_max ->
  int_min <= now < 0 ->
  exists d,
    throttleDelay cfg now = Some d
    /\ 2 * ThrottleMinMs cfg - ThrottleMaxMs cfg <= d <= ThrottleMinMs cfg
    /\ (now mod (ThrottleMaxMs cfg - ThrottleMinMs cfg + 1) <> 0 ->
        d < ThrottleMinMs cfg).
Proof.
  intros Hlo Hhi Hw Hnow. unfold throttleDelay, UnixNano, go_rem.
  destruct (Z.eqb_spec (ThrottleMinMs cfg) (ThrottleMaxMs cfg)); [lia|].
  set (width := ThrottleMaxMs cfg - ThrottleMinMs cfg + 1) in *.
  rewrite (wrap_id now) by (unfold in_int, int_min, int_max in *; lia).
  rewrite (wrap_id width)
    by (unfold in_int, int_min, int_max in *; unfold width; lia).
  destruct (Z.eqb_spec width 0); [unfold width in *; lia|].
  pose proof (Z.rem_bound_pos_neg now width ltac:(unfold width; lia)
                ltac:(lia)) as Hrem.
  rewrite wrap_id
    by (unfold in_int, int_min, int_max in *; unfold width in *; lia).
  eexists. split; [reflexivity|]. split; [unfold width in *; lia|].
  intros Hmod.
  assert (Z.rem now width <> 0).
  { intros Hz. apply Hmod. apply Z.rem_divide in Hz; [|lia].
    apply Z.mod_divide; [lia|exact Hz]. }
  lia.
Qed.

Lemma delay_before_epoch_is_below_min_witness :
  exists d,
    throttleDelay (loadConfig sample_env) (-1) = Some d /\ d < 1000.
Proof.
  destruct (delay_before_epoch_is_below_min (loadConfig sample_env) (-1))
    as (d & Hd & _ & Hlt).
  - vm_compute. split; [discriminate|reflexivity].
  - vm_compute. discriminate.
  - vm_compute. discriminate.
  - vm_compute. split; [discriminate|reflexivity].
  - exists d. split; [exact Hd|]. apply Hlt. vm_compute. discriminate.
Defined.

(** [time.Duration(delay) * time.Millisecond] is a 64-bit product. A
    fixed delay of up to 9223372036854 ms is slept in full; from there
    up to 18446744073709 ms the product wraps to a negative duration
    and the request is not delayed at all. *)
Theorem long_delay_overflows_duration r s :
  ThrottleMinMs (config s) = ThrottleMaxMs (config s) ->
  0 < ThrottleMaxMs (config s) ->
  exists s1,
    throttleMiddleware noop r s = Ok tt s1
    /\ (ThrottleMaxMs (config s) <= 9223372036854 ->
        clock s1 = clock s + ThrottleMaxMs (config s) * Millisecond)
    /\ (9223372036854 < ThrottleMaxMs (config s) <= 18446744073709 ->
        clock s1 = clock s).
Proof.
  intros Heq Hpos. rewrite throttleMiddleware_unfold.
  destruct (Z.ltb_spec 0 (ThrottleMaxMs (config s))); [|lia].
  unfold throttleDelay. rewrite Heq, Z.eqb_refl.
  eexists. split; [reflexivity|]. cbn [slept clock]. unfold Millisecond.
  split; intros Hd.
  - rewrite wrap_id by (unfold in_int, int_min, int_max; lia). lia.
  - assert (Hw : wrap (ThrottleMaxMs (config s) * 1000000)
                 = ThrottleMaxMs (config s) * 1000000 - 2 ^ 64).
    { unfold wrap.
      replace (ThrottleMaxMs (config s) * 1000000 + 2 ^ 63)
        with (ThrottleMaxMs (config s) * 1000000 - 2 ^ 63 + 1 * 2 ^ 64) by lia.
      rewrite Z.mod_add by lia. rewrite Z.mod_small by lia. lia. }
    rewrite Hw. lia.
Qed.

End ThrottleMore.

Lemma throttle_delay_is_clock_residue_witness :
  throttleMiddleware noop sample_request (exhausted (loadConfig sample_env))
  = Ok tt (slept 2821 (exhausted (loadConfig sample_env)))
  /\ throttleDelay (loadConfig sample_env) 1234 = Some 2234.
Proof.
  destruct (throttle_delay_is_clock_residue noop sample_request
              (exhausted (loadConfig sample_env)))
    as (Hrun & _ & Hall).
  - vm_compute. split; [discriminate|reflexivity].
  - vm_compute. discriminate.
  - vm_compute. split; [discriminate|reflexivity].
  - split; [exact Hrun|].
    apply (Hall 2234). vm_compute. split; discriminate.
Defined.

Lemma long_delay_overflows_duration_witness :
  exists s1,
    throttleMiddleware noop sample_request
      (exhausted (loadConfig {[ "THROTTLE_MIN_MS" := "9223372036855"%string;
                                "THROTTLE_MAX_MS" := "9223372036855"%string ]}))
    = Ok tt s1
    /\ clock s1 = sample_time.
Proof.
  destruct (long_delay_overflows_duration sample_request
              (exhausted (loadConfig
                 {[ "THROTTLE_MIN_MS" := "9223372036855"%string;
                    "THROTTLE_MAX_MS" := "9223372036855"%string ]})))
    as (s1 & Hrun & _ & Hskip).
  - reflexivity.
  - reflexivity.
  - exists s1. split; [exact Hrun|]. apply Hskip.
    vm_compute. split; [reflexivity|discriminate].
Defined.

(** ** The routes behind the pipeline *)

Section Routes.
Context {L : Type} `{!RateLimiter L}.
Variable RFC3339 : Z -> string.
Variables postHandler dbGetHandler dbPostHandler : HandlerFunc L.
Implicit Types (r : Request) (s : State L).

#[local] Abbreviation ServeHTTP' :=
  (ServeHTTP RFC3339 postHandler dbGetHandler dbPostHandler).

(** The closure [/api/db/messages] passes to [combinedMiddleware]. *)
#[local] Abbreviation byMethod :=
  (fun r : Request =>
     if decide (Method r = "GET"%string) then dbGetHandler r
     else if decide (Method r = "POST"%string) then dbPostHandler r
     else WriteHeader StatusMethodNotAllowed).

(** Each of the three routes runs the pipeline around its handler. *)
Lemma ServeHTTP_api r s :
  Path r ∈ api_paths ->
  exists next,
    ServeHTTP' r s = Some (combinedMiddleware next r (fresh s))
    /\ (Path r = "/api/db/messages"%string -> next = byMethod).
Proof.
  intros Hin. unfold api_paths in Hin.
  assert (Hget :
    routes RFC3339 postHandler dbGetHandler dbPostHandler !! "/api/get"%string
    = Some (combinedMiddleware (getHandler RFC3339))).
  { unfold routes. rewrite lookup_insert_ne by discriminate.
    apply lookup_insert_eq. }
  assert (Hpost :
    routes RFC3339 postHandler dbGetHandler dbPostHandler !! "/api/post"%string
    = Some (combinedMiddleware postHandler)).
  { unfold routes. rewrite !lookup_insert_ne by discriminate.
    apply lookup_insert_eq. }
  assert (Hdb :
    routes RFC3339 postHandler dbGetHandler dbPostHandler
      !! "/api/db/messages"%string
    = Some (dbMessages dbGetHandler dbPostHandler)).
  { unfold routes. rewrite !lookup_insert_ne by discriminate.
    apply lookup_singleton_eq. }
  unfold ServeHTTP, fresh. unfold M in *.
  apply elem_of_cons in Hin as [->|Hin];
    [|apply elem_of_cons in Hin as [->|Hin];
      [|apply elem_of_cons in Hin as [->|Hin];
        [|apply elem_of_nil in Hin; contradiction]]].
  - rewrite Hget. eexists. split; [reflexivity|discriminate].
  - rewrite Hpost. eexists. split; [reflexivity|discriminate].
  - rewrite Hdb. eexists. split; [reflexivity|reflexivity].
Qed.

(** On every route behind [combinedMiddleware], and for every method, a
    request the limiter refuses is answered 429 with the rate-limit
    error: on [/api/db/messages] the method is not even looked at. *)
Theorem every_api_route_answers_429 r s (s1 : State L) (l' : L) :
  Path r ∈ api_paths ->
  throttleMiddleware noop r (fresh s) = Ok tt s1 ->
  Allow (clock s1) (limiter s1) = (false, l') ->
  exists s2,
    ServeHTTP' r s = Some (Ok tt s2)
    /\ statusCode (rw s2) = 429
    /\ rw_body (rw s2) = [rateLimitError]
    /\ limiter s2 = l'
    /\ config s2 = config s.
Proof.
  intros Hin Hthr HA.
  destruct (ServeHTTP_api r s Hin) as (next & -> & _).
  destruct (throttle_stage_frame r _ _ Hthr) as (Hc & _ & _ & Hrw & _).
  rewrite combinedMiddleware_stages, Hthr.
  rewrite (rateLimitMiddleware_rejected _ _ _ _ HA).
  eexists. split; [reflexivity|]. cbn [rw limiter config].
  rewrite Hrw, Hc. repeat split.
Qed.

(** On [/api/db/messages] a method other than GET and POST is answered
    405 with no body and no content type, but only after the pipeline:
    the request has been delayed and has taken a token, and neither
    database handler has run. *)
Theorem other_methods_get_405_after_the_pipeline r s (s1 : State L) (l' : L) :
  Path r = "/api/db/messages"%string ->
  Method r <> "GET"%string -> Method r <> "POST"%string ->
  throttleMiddleware noop r (fresh s) = Ok tt s1 ->
  Allow (clock s1) (limiter s1) = (true, l') ->
  exists s2,
    ServeHTTP' r s = Some (Ok tt s2)
    /\ rw s2 = mkRW ∅ (Some 405) []
    /\ limiter s2 = l'
    /\ trace s2 = trace s1 ++ [EvAllow true]
    /\ clock s2 = clock s1.
Proof.
  intros Hpath Hget Hpost Hthr HA.
  destruct (ServeHTTP_api r s) as (next & -> & Hnext).
  { rewrite Hpath. unfold api_paths. set_solver. }
  rewrite (Hnext Hpath).
  destruct (throttle_stage_frame r _ _ Hthr) as (_ & _ & _ & Hrw & _).
  rewrite combinedMiddleware_stages, Hthr.
  rewrite (rateLimitMiddleware_allowed _ _ _ _ HA).
  destruct (decide (Method r = "GET"%string)); [contradiction|].
  destruct (decide (Method r = "POST"%string)); [contradiction|].
  unfold WriteHeader, with_rw. cbn [rw clock config limiter db trace].
  rewrite Hrw. eexists. split; [reflexivity|]. repeat split.
Qed.

(** With [ThrottleMinMs = ThrottleMaxMs + 1] every request to a route
    behind the pipeline panics before the limiter is asked: no token is
    taken and nothing is written. [/health] still answers. *)
Theorem off_by_one_bounds_abort_every_api_request s :
  0 < ThrottleMaxMs (config s) ->
  ThrottleMinMs (config s) = ThrottleMaxMs (config s) + 1 ->
  (forall r, Path r ∈ api_paths ->
     ServeHTTP' r s
     = Some (Panic "runtime error: integer divide by zero" (fresh s)))
  /\ (forall method addr : string,
        exists s',
          ServeHTTP' (mkRequest method "/health" addr) s = Some (Ok tt s')
          /\ statusCode (rw s') = if db s is Some _ then 503 else 200).
Proof.
  intros Hon Heq. split.
  - intros r Hin. destruct (ServeHTTP_api r s Hin) as (next & -> & _).
    rewrite combinedMiddleware_stages, throttle_stage. cbn [fresh config clock].
    destruct (Z.ltb_spec 0 (ThrottleMaxMs (config s))); [|lia].
    unfold throttleDelay.
    destruct (Z.eqb_spec (ThrottleMinMs (config s)) (ThrottleMaxMs (config s)));
      [lia|].
    replace (ThrottleMaxMs (config s) - ThrottleMinMs (config s) + 1)
      with 0 by lia.
    reflexivity.
  - intros method addr.
    assert (Hroute :
      routes RFC3339 postHandler dbGetHandler dbPostHandler !! "/health"%string
      = Some (healthHandler RFC3339)).
    { unfold routes. apply lookup_insert_eq. }
    unfold ServeHTTP. cbn [Path]. unfold M in Hroute |- *. rewrite Hroute.
    cbn [mbind option_bind]. rewrite healthHandler_run.
    eexists. split; [reflexivity|]. cbn [rw]. cbv zeta.
    destruct (db s); destruct (encodable _); reflexivity.
Qed.

(** The [time] of an answer of [/api/get] is read after the throttle
    delay, not at arrival: with a fixed delay of [d] ms, slept exactly,
    it is the arrival time plus [d] ms, and the limiter is asked at that
    time too. *)
Theorem get_reports_the_time_after_the_delay (method addr : string) s (l' : L) :
  ThrottleMinMs (config s) = ThrottleMaxMs (config s) ->
  0 < ThrottleMaxMs (config s) <= 9223372036854 ->
  Allow (clock s + ThrottleMaxMs (config s) * Millisecond) (limiter s)
  = (true, l') ->
  exists s2,
    ServeHTTP' (mkRequest method "/api/get" addr) s = Some (Ok tt s2)
    /\ statusCode (rw s2) = 200
    /\ rw_body (rw s2)
       = [JObj {[ "message" := JStr "GET request received successfully";
                  "time" := JStr (RFC3339 (clock s + ThrottleMaxMs (config s)
                                                    * Millisecond)) ]}]
    /\ rw_header (rw s2) !! "Content-Type"%string
       = Some "application/json"%string.
Proof.
  intros Heq Hd HA.
  assert (Hroute :
    routes RFC3339 postHandler dbGetHandler dbPostHandler !! "/api/get"%string
    = Some (combinedMiddleware (getHandler RFC3339))).
  { unfold routes. rewrite lookup_insert_ne by discriminate.
    apply lookup_insert_eq. }
  unfold ServeHTTP. cbn [Path]. unfold M in Hroute |- *. rewrite Hroute.
  cbn [mbind option_bind].
  rewrite combinedMiddleware_stages, throttle_stage. cbn [config clock].
  destruct (Z.ltb_spec 0 (ThrottleMaxMs (config s))); [|lia].
  unfold throttleDelay. rewrite Heq, Z.eqb_refl.
  assert (Hw : wrap (ThrottleMaxMs (config s) * Millisecond)
               = ThrottleMaxMs (config s) * Millisecond).
  { apply wrap_id. unfold in_int, int_min, int_max, Millisecond. lia. }
  assert (Hclock : clock s + Z.max 0 (wrap (ThrottleMaxMs (config s)
                                            * Millisecond))
                   = clock s + ThrottleMaxMs (config s) * Millisecond).
  { rewrite Hw. unfold Millisecond. lia. }
  rewrite (rateLimitMiddleware_allowed _ _ _ l')
    by (cbn [slept clock limiter]; rewrite Hclock; exact HA).
  cbn [slept clock config limiter db rw trace]. rewrite Hclock.
  unfold getHandler, mbind, M_bind, Header_Set, time_Now, json_Encode, with_rw.
  cbn [clock config limiter db rw trace rw_header rw_status rw_body
       newResponseWriter].
  eexists. split; [reflexivity|]. cbn [rw].
  split; [reflexivity|]. split; [reflexivity|]. apply lookup_insert_eq.
Qed.

End Routes.

Lemma every_api_route_answers_429_witness :
  exists s2,
    ServeHTTP sample_RFC3339 noop noop noop
      (mkRequest "DELETE" "/api/db/messages" "10.0.0.7:51234")
      (exhausted (loadConfig hourly_env)) = Some (Ok tt s2)
    /\ statusCode (rw s2) = 429.
Proof.
  destruct (every_api_route_answers_429 sample_RFC3339 noop noop noop
              (mkRequest "DELETE" "/api/db/messages" "10.0.0.7:51234")
              (exhausted (loadConfig hourly_env))
              (slept 200 (exhausted (loadConfig hourly_env)))
              (limiter (exhausted (loadConfig hourly_env))))
    as (s2 & Hrun & Hst & _).
  - unfold api_paths. cbn [Path]. set_solver.
  - reflexivity.
  - vm_compute. reflexivity.
  - exists s2. split; [exact Hrun|exact Hst].
Defined.

Lemma other_methods_get_405_after_the_pipeline_witness :
  exists s2,
    ServeHTTP sample_RFC3339 noop noop noop
      (mkRequest "DELETE" "/api/db/messages" "10.0.0.7:51234")
      (started plain_env) = Some (Ok tt s2)
    /\ rw s2 = mkRW ∅ (Some 405) []
    /\ limiter s2 = TokenBucket.mk (Finite 5) 5 4 (Some sample_time).
Proof.
  destruct (other_methods_get_405_after_the_pipeline sample_RFC3339
              noop noop noop
              (mkRequest "DELETE" "/api/db/messages" "10.0.0.7:51234")
              (started plain_env) (started plain_env)
              (TokenBucket.mk (Finite 5) 5 4 (Some sample_time)))
    as (s2 & Hrun & Hrw & Hl & _).
  - reflexivity.
  - discriminate.
  - discriminate.
  - reflexivity.
  - vm_compute. reflexivity.
  - exists s2. auto.
Defined.

Lemma off_by_one_bounds_abort_every_api_request_witness :
  ServeHTTP sample_RFC3339 noop noop noop sample_request
    (started {[ "THROTTLE_MIN_MS" := "501"%string;
                "THROTTLE_MAX_MS" := "500"%string ]})
  = Some (Panic "runtime error: integer divide by zero"
            (started {[ "THROTTLE_MIN_MS" := "501"%string;
                        "THROTTLE_MAX_MS" := "500"%string ]})).
Proof.
  apply (off_by_one_bounds_abort_every_api_request sample_RFC3339
           noop noop noop
           (started {[ "THROTTLE_MIN_MS" := "501"%string;
                       "THROTTLE_MAX_MS" := "500"%string ]})).
  - reflexivity.
  - reflexivity.
  - unfold api_paths. cbn [sample_request Path]. set_solver.
Defined.

Lemma get_reports_the_time_after_the_delay_witness :
  exists s2,
    ServeHTTP (fun t => if t =? sample_time + 2000000000
                        then "2025-11-15T10:30:02Z"%string
                        else "2025-11-15T10:30:00Z"%string)
      noop noop noop sample_request
      (started {[ "THROTTLE_MIN_MS" := "2000"%string;
                  "THROTTLE_MAX_MS" := "2000"%string ]}) = Some (Ok tt s2)
    /\ rw_body (rw s2)
       = [JObj {[ "message" := JStr "GET request received successfully";
                  "time" := JStr "2025-11-15T10:30:02Z" ]}].
Proof.
  destruct (get_reports_the_time_after_the_delay
              (fun t => if t =? sample_time + 2000000000
                        then "2025-11-15T10:30:02Z"%string
                        else "2025-11-15T10:30:00Z"%string)
              noop noop noop "GET" "10.0.0.7:51234"
              (started {[ "THROTTLE_MIN_MS" := "2000"%string;
                          "THROTTLE_MAX_MS" := "2000"%string ]})
              (TokenBucket.mk (Finite 10) 10 9
                 (Some (sample_time + 2000000000))))
    as (s2 & Hrun & _ & Hbody & _).
  - reflexivity.
  - vm_compute. split; [reflexivity|discriminate].
  - vm_compute. reflexivity.
  - exists s2. split; [exact Hrun|exact Hbody].
Defined.

(** ** The downstream handlers *)

(** An object is encodable when its fields are. *)
Lemma encodable_insert (m : gmap string JSON) (k : string) (v : JSON) :
  m !! k = None ->
  encodable (JObj (<[k := v]> m)) = encodable v && encodable (JObj m).
Proof.
  intros Hk. cbn [encodable].
  apply (map_fold_insert_L (fun _ v acc => encodable v && acc)); [|exact Hk].
  intros j1 j2 z1 z2 y _ _ _.
  destruct (encodable z1), (encodable z2); reflexivity.
Qed.

Section DownstreamFacts.
Context {L : Type}.
Variables RFC3339 Time_MarshalJSON : Z -> string.
Implicit Types (r : Request) (cfg : Config) (l : L).

Lemma encodable_Message (msg : Message) :
  encodable (Message_JSON Time_MarshalJSON msg) = true.
Proof. unfold Message_JSON. destruct (ID msg =? 0); reflexivity. Qed.

Lemma encodable_posted (payload : gmap string JSON) (now : Z) :
  encodable
    (JObj {[ "message" := JStr "POST request received successfully";
             "received" := JObj payload;
             "time" := JStr (RFC3339 now) ]})
  = encodable (JObj payload).
Proof.
  rewrite encodable_insert by reflexivity.
  rewrite encodable_insert by reflexivity.
  cbn [encodable andb]. rewrite map_fold_singleton.
  cbn [encodable]. apply andb_true_r.
Qed.

(** [/api/post] echoes: a body that decodes to an object comes back
    unchanged under [received], with status 200 and the time of the
    answer; a body that does not decode is answered 400 with an error
    and nothing else. Neither touches the limiter, the configuration or
    the clock. *)
Theorem post_echoes_its_payload
    (decodePayload : Request -> option (gmap string JSON))
    r (t : Z) cfg l (ping : option string) (tr : list Event) :
  (decodePayload r = None ->
   postHandler RFC3339 decodePayload r
     (mkState t cfg l ping newResponseWriter tr)
   = Ok tt (mkState t cfg l ping
              (mkRW {[ "Content-Type" := "application/json" ]}%string
                    (Some 400)
                    [JObj {[ "error" := JStr "Invalid JSON payload" ]}])
              tr))
  /\ (forall payload : gmap string JSON,
        decodePayload r = Some payload ->
        encodable (JObj payload) = true ->
        exists doc,
          postHandler RFC3339 decodePayload r
            (mkState t cfg l ping newResponseWriter tr)
          = Ok tt (mkState t cfg l ping
                     (mkRW {[ "Content-Type" := "application/json" ]}%string
                           (Some 200) [doc])
                     tr)
          /\ jpath ["received"]%string doc = Some (JObj payload)
          /\ jpath ["time"]%string doc = Some (JStr (RFC3339 t))).
Proof.
  split.
  - intros Hd. unfold postHandler. rewrite Hd. reflexivity.
  - intros payload Hd Henc. unfold postHandler. rewrite Hd.
    unfold mbind, M_bind, Header_Set, time_Now, json_Encode, with_rw.
    cbn [clock config limiter db rw trace rw_header rw_status rw_body
         newResponseWriter].
    rewrite encodable_posted, Henc.
    eexists. split; [reflexivity|]. split; reflexivity.
Qed.

(** The four answers of POST [/api/db/messages]: 400 for a body that
    does not decode, 400 for an empty [content], 500 when the INSERT
    fails, and 201 with the stored row: the content as sent, the [id]
    and [created_at] the database returned. *)
Theorem dbPost_answers
    (decodeMessage : Request -> option Message)
    (insertMessage : string -> option (Z * Z))
    r (t : Z) cfg l (ping : option string) (tr : list Event) :
  let run := dbPostHandler Time_MarshalJSON decodeMessage insertMessage r
               (mkState t cfg l ping newResponseWriter tr) in
  let answer code doc :=
    Ok tt (mkState t cfg l ping
             (mkRW {[ "Content-Type" := "application/json" ]}%string
                   (Some code) [doc]) tr) in
  (decodeMessage r = None ->
   run = answer 400 (JObj {[ "error" := JStr invalidMessagePayload ]}))
  /\ (forall msg, decodeMessage r = Some msg -> Content msg = EmptyString ->
      run = answer 400 (JObj {[ "error" := JStr "Content field is required" ]}))
  /\ (forall msg, decodeMessage r = Some msg -> Content msg <> EmptyString ->
      insertMessage (Content msg) = None ->
      run = answer 500 (JObj {[ "error" := JStr "Failed to insert message" ]}))
  /\ (forall msg id createdAt,
        decodeMessage r = Some msg -> Content msg <> EmptyString ->
        insertMessage (Content msg) = Some (id, createdAt) ->
        run = answer 201
                (JObj {[ "message" := JStr "Message saved successfully";
                         "data" := Message_JSON Time_MarshalJSON
                                     (mkMessage id (Content msg) createdAt) ]})
        /\ jpath ["data"; "content"]%string
             (JObj {[ "message" := JStr "Message saved successfully";
                      "data" := Message_JSON Time_MarshalJSON
                                  (mkMessage id (Content msg) createdAt) ]})
           = Some (JStr (Content msg))
        /\ (id <> 0 ->
            jpath ["data"; "id"]%string
              (JObj {[ "message" := JStr "Message saved successfully";
                       "data" := Message_JSON Time_MarshalJSON
                                   (mkMessage id (Content msg) createdAt) ]})
            = Some (JInt id))).
Proof.
  intros run answer. subst run answer. unfold dbPostHandler.
  split; [|split; [|split]].
  - intros ->. reflexivity.
  - intros msg -> Hc.
    destruct (decide (Content msg = EmptyString)); [reflexivity|contradiction].
  - intros msg -> Hc Hins.
    destruct (decide (Content msg = EmptyString)); [contradiction|].
    rewrite Hins. reflexivity.
  - intros msg id createdAt -> Hc Hins.
    destruct (decide (Content msg = EmptyString)); [contradiction|].
    rewrite Hins.
    unfold mbind, M_bind, Header_Set, WriteHeader, json_Encode, with_rw.
    cbn [clock config limiter db rw trace rw_header rw_status rw_body
         newResponseWriter].
    rewrite encodable_insert by reflexivity.
    cbn [encodable andb]. rewrite map_fold_singleton.
    rewrite encodable_Message. cbn [andb].
    split; [reflexivity|].
    unfold Message_JSON. cbn [ID Content CreatedAt].
    split.
    + destruct (id =? 0); reflexivity.
    + intros Hid. destruct (Z.eqb_spec id 0); [contradiction|reflexivity].
Qed.

(** What the POST handler never does: it does not ask the database when
    the body does not decode or the content is empty (the answer is the
    same whatever the database would say), and an [id] or [created_at]
    sent by the client never reaches the answer (two bodies with the
    same content get the same answer). *)
Theorem dbPost_ignores
    (decodeMessage decodeMessage' : Request -> option Message)
    (insertMessage insertMessage' : string -> option (Z * Z))
    r (s : State L) :
  ((decodeMessage r = None
    \/ exists msg, decodeMessage r = Some msg /\ Content msg = EmptyString) ->
   dbPostHandler Time_MarshalJSON decodeMessage insertMessage r s
   = dbPostHandler Time_MarshalJSON decodeMessage insertMessage' r s)
  /\ (forall msg msg',
        decodeMessage r = Some msg -> decodeMessage' r = Some msg' ->
        Content msg = Content msg' ->
        dbPostHandler Time_MarshalJSON decodeMessage insertMessage r s
        = dbPostHandler Time_MarshalJSON decodeMessage' insertMessage r s).
Proof.
  unfold dbPostHandler. split.
  - intros [->|(msg & -> & Hc)]; [reflexivity|].
    destruct (decide (Content msg = EmptyString)); [reflexivity|contradiction].
  - intros msg msg' -> -> ->. reflexivity.
Qed.

End DownstreamFacts.

(** ** More on the health report *)

Section HealthMore.
Context {L : Type} `{!RateLimiter L}.
Variable RFC3339 : Z -> string.
Variables postHandler dbGetHandler dbPostHandler : HandlerFunc L.


#[local] Abbreviation ServeHTTP' :=
  (ServeHTTP RFC3339 postHandler dbGetHandler dbPostHandler).
#[local] Abbreviation serveAll' :=
  (serveAll RFC3339 postHandler dbGetHandler dbPostHandler).

Lemma serve_health (method addr : string) (s : State L) :
  exists s',
    ServeHTTP' (mkRequest method "/health" addr) s = Some (Ok tt s')
    /\ limiter s' = limiter s /\ config s' = config s.
Proof.
  assert (Hroute :
    routes RFC3339 postHandler dbGetHandler dbPostHandler !! "/health"%string
    = Some (healthHandler RFC3339)).
  { unfold routes. apply lookup_insert_eq. }
  unfold ServeHTTP. cbn [Path]. unfold M in Hroute |- *. rewrite Hroute.
  cbn [mbind option_bind]. rewrite healthHandler_run.
  eexists. split; [reflexivity|]. split; reflexivity.
Qed.

(** Health checks take no tokens: with throttling off, in any run of
    requests to [/health] and [/api/get], the statuses of the
    [/api/get] requests are the limiter's answers at their arrival
    times, as if the health checks had not been made. *)
Theorem health_checks_take_no_tokens (arrivals : list (Z * Request)) :
  forall s : State L,
    ThrottleMaxMs (config s) <= 0 ->
    Forall (fun a => Path (snd a) = "/health"%string
                     \/ Path (snd a) = "/api/get"%string) arrivals ->
    api_get_statuses arrivals (serveAll' arrivals s)
    = map (fun ok : bool => Some (if ok then 200 else 429))
          (decisions (api_get_times arrivals) (limiter s)).
Proof.
  unfold api_get_statuses, api_get_times.
  induction arrivals as [|[now [method path addr]] rest IH];
    intros s Hoff Hall; [reflexivity|].
  apply Forall_cons_iff in Hall as [Hpath Hall]. cbn [snd Path] in Hpath.
  cbn [serveAll]. destruct Hpath as [->| ->].
  - destruct (serve_health method addr
                (mkState now (config s) (limiter s) (db s) (rw s) (trace s)))
      as (s' & Hrun & Hl & Hc).
    rewrite Hrun. cbn [limiter config] in Hl, Hc.
    cbn [zip zip_with List.filter fst snd Path].
    lazymatch goal with
    | |- context [to_api_get ?a] => change (to_api_get a) with false
    end.
    cbv iota.
    rewrite IH by (try exact Hall; rewrite Hc; exact Hoff).
    rewrite Hl. reflexivity.
  - destruct (serve_api_get RFC3339 postHandler dbGetHandler dbPostHandler
                method addr
                (mkState now (config s) (limiter s) (db s) (rw s) (trace s))
                Hoff) as (s' & Hrun & Hst & Hc & Hl & _).
    rewrite Hrun. cbn [clock limiter config] in Hst, Hl, Hc.
    cbn [zip zip_with List.filter fst snd Path].
    lazymatch goal with
    | |- context [to_api_get ?a] => change (to_api_get a) with true
    end.
    cbv iota. rewrite bool_decide_eq_true_2 by reflexivity.
    cbn [map fst snd decisions]. rewrite Hst.
    destruct (Allow now (limiter s)) as [ok l'].
    cbn [fst snd] in *. cbn [map].
    rewrite IH by (try exact Hall; rewrite Hc; exact Hoff).
    rewrite Hl. reflexivity.
Qed.

End HealthMore.

Lemma post_echoes_its_payload_witness :
  exists doc,
    postHandler sample_RFC3339 sample_payload sample_post (started plain_env)
    = Ok tt (mkState sample_time (loadConfig plain_env)
               (limiter (started plain_env)) None
               (mkRW {[ "Content-Type" := "application/json" ]}%string
                     (Some 200) [doc])
               [])
    /\ jpath ["received"]%string doc
       = Some (JObj {[ "name" := JStr "Ana";
                       "age" := JFloat (Finite (30 # 1)) ]})
    /\ jpath ["time"]%string doc = Some (JStr (sample_RFC3339 sample_time)).
Proof.
  apply (proj2 (post_echoes_its_payload (L := TokenBucket.t) sample_RFC3339
                  sample_payload sample_post sample_time (loadConfig plain_env)
                  (limiter (started plain_env)) None [])).
  - reflexivity.
  - vm_compute. reflexivity.
Defined.

Lemma dbPost_answers_witness :
  dbPostHandler sample_RFC3339 sample_message sample_insert sample_post
    (started plain_env)
  = Ok tt (mkState sample_time (loadConfig plain_env)
             (limiter (started plain_env)) None
             (mkRW {[ "Content-Type" := "application/json" ]}%string
                   (Some 201)
                   [JObj {[ "message" := JStr "Message saved successfully";
                            "data" :=
                              JObj {[ "id" := JInt 7;
                                      "content" := JStr "hello";
                                      "created_at" :=
                                        JStr (sample_RFC3339 sample_time) ]}
                         ]}])
             []).
Proof.
  destruct (dbPost_answers (L := TokenBucket.t) sample_RFC3339 sample_message
              sample_insert sample_post sample_time (loadConfig plain_env)
              (limiter (started plain_env)) None [])
    as (_ & _ & _ & Hcreated).
  destruct (Hcreated (mkMessage 99 "hello" 0) 7 sample_time)
    as (Hrun & _); [reflexivity|discriminate|reflexivity|].
  exact Hrun.
Defined.

Lemma health_checks_take_no_tokens_witness :
  api_get_statuses sample_mix
    (serveAll sample_RFC3339 noop noop noop sample_mix (started plain_env))
  = [Some 200; Some 200; Some 200; Some 200; Some 200; Some 429].
Proof.
  rewrite (health_checks_take_no_tokens sample_RFC3339 noop noop noop
             sample_mix (started plain_env)).
  - vm_compute. reflexivity.
  - vm_compute. discriminate.
  - unfold sample_mix, sample_health, sample_request.
    repeat (apply Forall_cons; split;
            [first [left; reflexivity | right; reflexivity]|]).
    apply Forall_nil. exact I.
Defined.

(** A request budget beyond the range of [int], a negative period. *)
Lemma loadConfig_reads_decimal_numbers_witness :
  RateLimitRequests
    (loadConfig {[ "RATE_LIMIT_REQUESTS" := "99999999999999999999"%string ]})
  = 9223372036854775807
  /\ RateLimitPeriod (loadConfig {[ "RATE_LIMIT_PERIOD" := "-30"%string ]})
     = -30.
Proof.
  split.
  - exact (proj1 (loadConfig_reads_decimal_numbers ∅ 99999999999999999999)).
  - exact (proj1 (proj2 (loadConfig_reads_decimal_numbers ∅ (-30)))).
Defined.
